(** * Verification of the retrieval-and-answer pipeline of the RAG chatbot

    A shallow embedding of [src/ingest.py], [src/retrieval.py] and of
    [RAGChatbot.answer] ([src/chatbot_groq.py], [src/rag_core.py]).

    Python dictionaries are finite maps with string keys, Python integers
    are [Z], strings are byte strings.  Code that prints, touches the
    filesystem, calls the hosted generation service or raises runs in a
    state-and-exception monad over an explicit [World].  The third-party
    collaborators (embedding model, text splitter, Groq service) are
    interfaces, the vector store is modelled from its description in
    the specification; the repository's own code is written out. *)

From Stdlib Require Import ZArith String Ascii List Sorted.
From stdpp Require Import base option list sorting gmap strings pretty.

Open Scope string_scope.
Open Scope Z_scope.

(** ** Python values and exceptions *)

(** Values stored in metadata dictionaries and in the answer's metadata. *)
Inductive pyval : Type :=
  | PyNone
  | PyInt (z : Z)
  | PyStr (s : string).

(** A Python [dict] with string keys. *)
Abbreviation pydict := (gmap string pyval).

(** [d.get(key, default)] *)
Definition dict_get (d : pydict) (key : string) (default : pyval) : pyval :=
  match d !! key with
  | Some v => v
  | None => default
  end.

(** An instance of Python's [Exception]: its class and its message.
    [str(e)] is the message. *)
Record Exception : Type := mkException {
  exc_class : string;
  exc_message : string
}.

Definition str (e : Exception) : string := exc_message e.

Definition FileNotFoundError (msg : string) : Exception := mkException "FileNotFoundError" msg.
Definition ValueError (msg : string) : Exception := mkException "ValueError" msg.
Definition IndexError (msg : string) : Exception := mkException "IndexError" msg.
Definition AttributeError (msg : string) : Exception := mkException "AttributeError" msg.
Definition RuntimeError (msg : string) : Exception := mkException "RuntimeError" msg.
Definition AssertionError (msg : string) : Exception := mkException "AssertionError" msg.

Inductive result (A : Type) : Type :=
  | Ok (a : A)
  | Raise (e : Exception).

Arguments Ok {A} a.
Arguments Raise {A} e.

(** ** String helpers for f-strings, [*] and [join] *)

Definition nl : string := String (ascii_of_nat 10) EmptyString.

(** [s * n] *)
Fixpoint str_repeat (s : string) (n : nat) : string :=
  match n with
  | O => ""
  | S n' => s +:+ str_repeat s n'
  end.

Arguments str_repeat : simpl never.

(** [sep.join(parts)] *)
Fixpoint str_join (sep : string) (parts : list string) : string :=
  match parts with
  | [] => ""
  | [p] => p
  | p :: rest => p +:+ sep +:+ str_join sep rest
  end.

(** [len(l)] as a Python integer. *)
Definition len {A : Type} (l : list A) : Z := Z.of_nat (length l).

(** ** Paths

    Paths are strings in the spelling [pathlib] prints them: components
    separated by single slashes, no trailing slash. *)

(** The prefixes of [rest] that end before a slash, each extended on
    the left by [seen]; a slash right after another or at the very
    start opens no component. *)
Fixpoint ancestors_from (seen rest : string) : list string :=
  match rest with
  | EmptyString => []
  | String c rest' =>
      if Ascii.eqb c "/" then
        match seen with
        | EmptyString => ancestors_from (seen +:+ "/") rest'
        | _ =>
            if String.eqb (String.substring (String.length seen - 1) 1 seen) "/"
            then ancestors_from (seen +:+ "/") rest'
            else seen :: ancestors_from (seen +:+ "/") rest'
        end
      else ancestors_from (seen +:+ String c EmptyString) rest'
  end.

(** [path.parents], outermost first: the directories that
    [mkdir(parents=True)] creates on the way to [path]. *)
Definition path_parents (path : string) : list string := ancestors_from "" path.

(** ** Documents *)

(** A LangChain [Document]: [page_content] and a [metadata] dictionary. *)
Record Document : Type := mkDocument {
  page_content : string;
  doc_metadata : pydict
}.

(** [HuggingFaceEmbeddings(model_name=..., model_kwargs={'device': ...})] *)
Record HuggingFaceEmbeddings : Type := mkEmbeddings {
  model_name : string;
  device : string
}.

Definition default_embedding_model : string := "sentence-transformers/all-MiniLM-L6-v2".

(** [RecursiveCharacterTextSplitter(chunk_size=..., chunk_overlap=...,
    length_function=len, separators=[...])] *)
Record RecursiveCharacterTextSplitter : Type := mkTextSplitter {
  ts_chunk_size : Z;
  ts_chunk_overlap : Z;
  ts_separators : list string
}.

(** ** External collaborators *)

(** What the Python runtime provides and the code only passes through:
    the numeric type of the scores reported by the index, Python's
    [float], the conversion [float(score)], the comparisons on both
    ([raw_leb] decides [raw_le]), and [str.strip]. *)
Class PyRuntime : Type := {
  raw_score : Type;
  float : Type;
  float_of : raw_score -> float;
  raw_le : relation raw_score;
  raw_leb : raw_score -> raw_score -> bool;
  float_le : relation float;
  str_strip : string -> string
}.

(** The arithmetic of the scores: the comparison is decided by
    [raw_leb], any two scores compare, and [float(score)] keeps their
    order. *)
Class OrderedScores {rt : PyRuntime} : Prop := {
  raw_leb_le : forall x y : raw_score, raw_leb x y = true <-> raw_le x y;
  raw_le_total : forall x y : raw_score, raw_le x y \/ raw_le y x;
  float_of_mono : forall x y : raw_score, raw_le x y -> float_le (float_of x) (float_of y)
}.

(** The libraries behind LangChain: the embedding provider
    ([embed(text) -> vector], the same at ingestion and at query time),
    the distance of the index, the construction of an index from
    chunks, which yields the (chunk, embedding) pairs it stores or
    raises, and the text splitter. *)
Class VectorEngine {rt : PyRuntime} : Type := {
  vector : Type;
  embed : HuggingFaceEmbeddings -> string -> vector;
  distance : vector -> vector -> raw_score;
  build_index : HuggingFaceEmbeddings -> list Document -> result (list (Document * vector));
  split_documents : RecursiveCharacterTextSplitter -> list Document -> list Document
}.

(** ** The vector store engine *)

Section VectorStoreEngine.
Context {rt : PyRuntime} {engine : VectorEngine}.

(** Modelled from the spec: the persisted collection of (chunk,
    embedding) pairs of the Vector Store; the store engine itself
    (FAISS behind LangChain) is a library outside the repository. *)
Definition Index : Type := list (Document * vector).

(** Modelled from the spec: the item count of the store. *)
Definition ntotal (idx : Index) : Z := len idx.

(** Modelled from the spec: insertion by ascending score, before the
    entries that score the same. *)
Fixpoint insert_by_score (p : Document * raw_score) (l : list (Document * raw_score))
  : list (Document * raw_score) :=
  match l with
  | [] => [p]
  | q :: rest =>
      if raw_leb (snd p) (snd q) then p :: q :: rest
      else q :: insert_by_score p rest
  end.

(** Modelled from the spec: ascending distance, the order of the
    store's answers. *)
Definition by_score (p q : Document * raw_score) : Prop := raw_le (snd p) (snd q).

(** Modelled from the spec: results ordered by relevance, ascending
    distance. *)
Definition rank_by_score (scored : list (Document * raw_score)) : list (Document * raw_score) :=
  fold_right insert_by_score [] scored.

(** Modelled from the spec: [similarity_search_with_score(query, k)] is
    a k-nearest-neighbour search: the query is embedded with the
    embedding provider, every stored chunk is scored by its distance to
    it, and the [k] nearest are returned, nearest first. The search is
    specified for [k >= 1]; for any other [k] the engine fails its
    assertion [k > 0]. *)
Definition knn (emb : HuggingFaceEmbeddings) (idx : Index) (query : string) (k : Z)
  : result (list (Document * raw_score)) :=
  if k <=? 0 then Raise (AssertionError "")
  else
    let query_vector := embed emb query in
    Ok (take (Z.to_nat k)
          (rank_by_score
             (map (fun '(chunk, v) => (chunk, distance query_vector v)) idx))).
End VectorStoreEngine.

(** A request to [client.chat.completions.create] and its response. *)
Record ChatMessage : Type := mkChatMessage {
  role : string;
  msg_content : string
}.

Record ChatRequest {rt : PyRuntime} : Type := mkChatRequest {
  req_model : string;
  req_messages : list ChatMessage;
  req_temperature : float;
  req_max_tokens : Z
}.

(** [response.choices[i].message.content]; the content may be [None]. *)
Record Choice : Type := mkChoice {
  message_content : option string
}.

Record ChatCompletion : Type := mkChatCompletion {
  choices : list Choice
}.

(** The hosted generation service: its outcome on a request, given the
    requests it has already served. *)
Class GroqService {rt : PyRuntime} : Type := {
  chat_completions_create : list ChatRequest -> ChatRequest -> result ChatCompletion
}.

(** ** The world: filesystem, console, generation service log *)

Section World.
Context {rt : PyRuntime} {engine : VectorEngine}.

(** A directory, seen through what the code reads and writes in it:
    [pdfs] is what [DirectoryLoader(dir, glob="**/*.pdf",
    loader_cls=PyPDFLoader).load()] produces on it, [faiss_index] is
    the index persisted by [save_local], [metadata_pkl] is the
    dictionary pickled in [metadata.pkl]. *)
Record Dir : Type := mkDir {
  pdfs : result (list Document);
  faiss_index : option Index;
  metadata_pkl : option pydict
}.

Definition empty_dir : Dir := mkDir (Ok []) None None.

Record World : Type := mkWorld {
  fs : gmap string Dir;
  stdout : list string;
  groq_log : list ChatRequest
}.

(** Computations that may print, change the filesystem, call the
    generation service, or raise. The state survives a raise. *)
Definition M (A : Type) : Type := World -> result A * World.

Definition ret {A : Type} (a : A) : M A := fun w => (Ok a, w).

Definition raise {A : Type} (e : Exception) : M A := fun w => (Raise e, w).

Definition bind {A B : Type} (m : M A) (k : A -> M B) : M B :=
  fun w =>
    match m w with
    | (Ok a, w') => k a w'
    | (Raise e, w') => (Raise e, w')
    end.

(** [try: body  except Exception as e: handler(e)] *)
Definition try_except {A : Type} (body : M A) (handler : Exception -> M A) : M A :=
  fun w =>
    match body w with
    | (Ok a, w') => (Ok a, w')
    | (Raise e, w') => handler e w'
    end.

Definition lift_result {A : Type} (r : result A) : M A := fun w => (r, w).

(** [print(line)] *)
Definition print (line : string) : M unit :=
  fun w => (Ok tt, mkWorld (fs w) (stdout w ++ [line])%list (groq_log w)).

(** [path.exists()] *)
Definition path_exists (path : string) : M bool :=
  fun w => (Ok (bool_decide (is_Some (fs w !! path))), w).

(** Creation of one directory unless it exists. *)
Definition ensure_dir (files : gmap string Dir) (path : string) : gmap string Dir :=
  match files !! path with
  | Some _ => files
  | None => <[path := empty_dir]> files
  end.

(** [path.mkdir(exist_ok=True, parents=True)]: the missing ancestors
    are created first, then the directory itself. *)
Definition mkdir (path : string) : M unit :=
  fun w =>
    (Ok tt,
     mkWorld (fold_left ensure_dir (path_parents path ++ [path])%list (fs w))
       (stdout w) (groq_log w)).

(** [client.chat.completions.create(...)]: the service answers from
    the requests it has served so far, and the request is logged. *)
Definition groq_create {groq : GroqService} (req : ChatRequest) : M ChatCompletion :=
  fun w =>
    (chat_completions_create (groq_log w) req,
     mkWorld (fs w) (stdout w) (groq_log w ++ [req])%list).

(** [DirectoryLoader(path, glob="**/*.pdf", loader_cls=PyPDFLoader,
    show_progress=True).load()] *)
Definition directory_loader_load (path : string) : M (list Document) :=
  fun w =>
    match fs w !! path with
    | Some d => (pdfs d, w)
    | None => (Raise (FileNotFoundError ("Directory not found: '" +:+ path +:+ "'")), w)
    end.

(** Update of an existing directory; a missing one is an I/O error. *)
Definition update_dir (path : string) (f : Dir -> Dir) : M unit :=
  fun w =>
    match fs w !! path with
    | Some d => (Ok tt, mkWorld (<[path := f d]> (fs w)) (stdout w) (groq_log w))
    | None => (Raise (FileNotFoundError ("[Errno 2] No such file or directory: '" +:+ path +:+ "'")), w)
    end.
End World.

Declare Scope py_scope.
Delimit Scope py_scope with py.
Notation "x <- m ;; k" := (bind m (fun x => k))
  (at level 100, m at next level, right associativity) : py_scope.
Notation "m ;; k" := (bind m (fun _ => k))
  (at level 100, right associativity) : py_scope.
Open Scope py_scope.

(** [enumerate(l, start)] *)
Fixpoint enumerate {A : Type} (start : Z) (l : list A) : list (Z * A) :=
  match l with
  | [] => []
  | x :: rest => (start, x) :: enumerate (start + 1) rest
  end.

(** ** [langchain_community.vectorstores.FAISS] and [pickle]

    The store object pairs the engine's index with the embedding function
    it was built or loaded with. Persistence keeps the index in the
    directory; loading attaches the embedding function given by the
    caller. *)
Module vectorstores.
Section FAISS.
Context {rt : PyRuntime} {engine : VectorEngine}.

Record FAISS : Type := mkFAISS {
  index : Index;
  embedding_function : HuggingFaceEmbeddings
}.

(** [FAISS.from_documents(documents=..., embedding=...)] *)
Definition from_documents (documents : list Document) (embedding : HuggingFaceEmbeddings) : M FAISS :=
  idx <- lift_result (build_index embedding documents) ;;
  ret (mkFAISS idx embedding).

(** [vectorstore.save_local(folder)] *)
Definition save_local (self : FAISS) (folder : string) : M unit :=
  mkdir folder ;;
  update_dir folder (fun d => mkDir (pdfs d) (Some (index self)) (metadata_pkl d)).

(** [FAISS.load_local(folder, embeddings, allow_dangerous_deserialization=True)] *)
Definition load_local (folder : string) (embeddings : HuggingFaceEmbeddings) : M FAISS :=
  fun w =>
    match fs w !! folder with
    | Some d =>
        match faiss_index d with
        | Some idx => (Ok (mkFAISS idx embeddings), w)
        | None => (Raise (RuntimeError ("could not open " +:+ folder +:+ "/index.faiss for reading")), w)
        end
    | None => (Raise (RuntimeError ("could not open " +:+ folder +:+ "/index.faiss for reading")), w)
    end.

(** [vectorstore.similarity_search_with_score(query, k=k)] *)
Definition similarity_search_with_score (self : FAISS) (query : string) (k : Z)
  : result (list (Document * raw_score)) :=
  knn (embedding_function self) (index self) query k.

(** [with open(folder / "metadata.pkl", "wb") as f: pickle.dump(obj, f)] *)
Definition pickle_dump_metadata (obj : pydict) (folder : string) : M unit :=
  update_dir folder (fun d => mkDir (pdfs d) (faiss_index d) (Some obj)).
End FAISS.
End vectorstores.

(** ** [src/retrieval.py] *)
Module retrieval.
Import vectorstores.
Section Retriever.
Context {rt : PyRuntime} {engine : VectorEngine}.

Record Retriever : Type := mkRetriever {
  vectorstore_dir : string;
  top_k : Z;
  embeddings : HuggingFaceEmbeddings;
  vectorstore : FAISS;
  self_metadata : pydict
}.

(** The dictionaries built by [search], with keys ['content'],
    ['metadata'], ['score'] and ['source']. *)
Record SearchResult : Type := mkSearchResult {
  content : string;
  metadata : pydict;
  score : float;
  source : pyval
}.

Definition _load_vectorstore (vectorstore_dir : string) (embeddings : HuggingFaceEmbeddings)
  : M FAISS :=
  dir_exists <- path_exists vectorstore_dir ;;
  if negb dir_exists then
    raise (FileNotFoundError
             ("Vector store not found at " +:+ vectorstore_dir +:+ ". "
              +:+ "Please run ingest.py first."))
  else
    print ("Loading vector store from " +:+ vectorstore_dir +:+ "...") ;;
    vectorstore <- load_local vectorstore_dir embeddings ;;
    print ("✓ Vector store loaded with " +:+ pretty (ntotal (index vectorstore)) +:+ " chunks") ;;
    ret vectorstore.

Definition _load_metadata (vectorstore_dir : string) : M pydict :=
  fun w =>
    match fs w !! vectorstore_dir with
    | Some d =>
        match metadata_pkl d with
        | Some md => (Ok md, w)
        | None => (Ok ∅, w)
        end
    | None => (Ok ∅, w)
    end.

Definition __init__ (vectorstore_dir : string) (embedding_model : string) (top_k : Z)
  : M Retriever :=
  print ("Loading embedding model: " +:+ embedding_model) ;;
  let embeddings := mkEmbeddings embedding_model "cpu" in
  vectorstore <- _load_vectorstore vectorstore_dir embeddings ;;
  metadata <- _load_metadata vectorstore_dir ;;
  ret (mkRetriever vectorstore_dir top_k embeddings vectorstore metadata).

(** The dictionary appended for one [(doc, score)] pair. *)
Definition format_result (doc : Document) (score : raw_score) : SearchResult :=
  {| content := page_content doc;
     metadata := doc_metadata doc;
     score := float_of score;
     source := dict_get (doc_metadata doc) "source" (PyStr "Unknown") |}.

(** [search] prints nothing and touches no file: it returns its list
    or raises what the store raises. *)
Definition search (self : Retriever) (query : string) (k : option Z)
  : result (list SearchResult) :=
  let k := match k with
           | None => top_k self
           | Some k => k
           end in
  match similarity_search_with_score (vectorstore self) query k with
  | Raise e => Raise e
  | Ok results =>
      Ok (fold_left
            (fun formatted_results '(doc, score) =>
               (formatted_results ++ [format_result doc score])%list)
            results [])
  end.

Definition get_context (self : Retriever) (query : string) (k : option Z) : result string :=
  match search self query k with
  | Raise e => Raise e
  | Ok results =>
      let context_parts :=
        fold_left
          (fun context_parts '(i, result) =>
             (context_parts
                ++ ["[Document " +:+ pretty i +:+ "]" +:+ nl +:+ content result])%list)
          (enumerate 1 results) [] in
      Ok (str_join (nl +:+ nl) context_parts)
  end.

Definition get_stats (self : Retriever) : pydict :=
  <["embedding_model" := PyStr "sentence-transformers/all-MiniLM-L6-v2"]>
  (<["chunk_overlap" := dict_get (self_metadata self) "chunk_overlap" (PyStr "Unknown")]>
  (<["chunk_size" := dict_get (self_metadata self) "chunk_size" (PyStr "Unknown")]>
  (<["total_chunks" := PyInt (ntotal (index (vectorstore self)))]> ∅))).

(** *** Vocabulary for the statements about [search] *)

(** The value of [k] that [search] hands to the store. *)
Definition effective_k (self : Retriever) (k : option Z) : Z :=
  match k with
  | None => top_k self
  | Some k => k
  end.

(** What relates a formatted result to the [(doc, score)] pair it
    was built from. *)
Definition carries (r : SearchResult) (p : Document * raw_score) : Prop :=
  content r = page_content (fst p)
  /\ metadata r = doc_metadata (fst p)
  /\ score r = float_of (snd p)
  /\ source r = dict_get (doc_metadata (fst p)) "source" (PyStr "Unknown").
End Retriever.
End retrieval.

(** [str(v)] as an f-string prints it. *)
Definition py_str (v : pyval) : string :=
  match v with
  | PyNone => "None"
  | PyInt z => pretty z
  | PyStr s => s
  end.

(** ** [src/ingest.py] *)
Module ingest.
Import vectorstores.
Section DocumentIngestor.
Context {rt : PyRuntime} {engine : VectorEngine}.

Record DocumentIngestor : Type := mkDocumentIngestor {
  data_dir : string;
  vectorstore_dir : string;
  chunk_size : Z;
  chunk_overlap : Z;
  embeddings : HuggingFaceEmbeddings;
  text_splitter : RecursiveCharacterTextSplitter
}.

Definition __init__ (data_dir vectorstore_dir : string) (chunk_size chunk_overlap : Z)
    (embedding_model : string) : M DocumentIngestor :=
  print ("Loading embedding model: " +:+ embedding_model) ;;
  let embeddings := mkEmbeddings embedding_model "cpu" in
  let text_splitter :=
    mkTextSplitter chunk_size chunk_overlap [nl +:+ nl; nl; " "; ""] in
  ret (mkDocumentIngestor data_dir vectorstore_dir chunk_size chunk_overlap
         embeddings text_splitter).

Definition load_documents (self : DocumentIngestor) : M (list Document) :=
  print ("Loading documents from " +:+ data_dir self +:+ "...") ;;
  dir_exists <- path_exists (data_dir self) ;;
  if negb dir_exists then
    raise (FileNotFoundError ("Data directory not found: " +:+ data_dir self))
  else
    documents <- directory_loader_load (data_dir self) ;;
    print ("Loaded " +:+ pretty (len documents) +:+ " document pages") ;;
    ret documents.

Definition chunk_documents (self : DocumentIngestor) (documents : list Document)
  : M (list Document) :=
  print "Chunking documents..." ;;
  let chunks := split_documents (text_splitter self) documents in
  print ("Created " +:+ pretty (len chunks) +:+ " chunks") ;;
  ret chunks.

Definition create_vectorstore (self : DocumentIngestor) (chunks : list Document) : M FAISS :=
  print "Creating embeddings and vector store..." ;;
  print "This may take a few minutes depending on document size..." ;;
  vectorstore <- from_documents chunks (embeddings self) ;;
  ret vectorstore.

(** The sidecar record written next to the index. *)
Definition sidecar_metadata (self : DocumentIngestor) (vectorstore : FAISS) : pydict :=
  <["chunk_overlap" := PyInt (chunk_overlap self)]>
  (<["chunk_size" := PyInt (chunk_size self)]>
  (<["num_chunks" := PyInt (ntotal (index vectorstore))]> ∅)).

Definition save_vectorstore (self : DocumentIngestor) (vectorstore : FAISS) : M unit :=
  mkdir (vectorstore_dir self) ;;
  print ("Saving vector store to " +:+ vectorstore_dir self +:+ "...") ;;
  save_local vectorstore (vectorstore_dir self) ;;
  let metadata := sidecar_metadata self vectorstore in
  pickle_dump_metadata metadata (vectorstore_dir self) ;;
  print ("✓ Vector store saved with "
         +:+ py_str (dict_get metadata "num_chunks" PyNone) +:+ " chunks").

Definition no_documents_warning : string :=
  "⚠ No documents found. Please add PDF files to the data/ directory".

Definition ingest (self : DocumentIngestor) : M unit :=
  print (str_repeat "=" 50) ;;
  print "Starting Document Ingestion Pipeline" ;;
  print (str_repeat "=" 50) ;;
  try_except
    (documents <- load_documents self ;;
     if len documents =? 0 then
       print no_documents_warning
     else
       chunks <- chunk_documents self documents ;;
       vectorstore <- create_vectorstore self chunks ;;
       save_vectorstore self vectorstore ;;
       print (nl +:+ str_repeat "=" 50) ;;
       print "✓ Ingestion Complete!" ;;
       print (str_repeat "=" 50))
    (fun e =>
       print (nl +:+ "✗ Error during ingestion: " +:+ str e) ;;
       raise e).
End DocumentIngestor.
End ingest.

(** ** [RAGChatbot] of [src/chatbot_groq.py]

    [src/rag_core.py] defines [_create_prompt] and [answer] with the same
    text, so both files are covered by the one embedding below. *)
Module chatbot_groq.
Import retrieval.
Section RAGChatbot.
Context {rt : PyRuntime} {engine : VectorEngine} {groq : GroqService}.

(** [Groq(api_key=...)] *)
Record Groq : Type := mkGroq {
  api_key : string
}.

Record RAGChatbot : Type := mkRAGChatbot {
  model : string;
  temperature : float;
  top_k : Z;
  client : Groq;
  retriever : Retriever
}.

(** The dictionary returned by [answer], with keys ['answer'],
    ['sources'] and ['metadata']. *)
Record Response : Type := mkResponse {
  resp_answer : string;
  resp_sources : list SearchResult;
  resp_metadata : pydict
}.

Definition __init__ (vectorstore_dir : string) (groq_api_key : option string)
    (model : string) (top_k : Z) (temperature : float) : M RAGChatbot :=
  match groq_api_key with
  | None | Some "" => raise (ValueError "Please provide a Groq API key")
  | Some key =>
      let client := mkGroq key in
      print "Initializing retriever..." ;;
      retriever <- retrieval.__init__ vectorstore_dir default_embedding_model top_k ;;
      print ("✓ RAG Chatbot ready with " +:+ model) ;;
      ret (mkRAGChatbot model temperature top_k client retriever)
  end.

Definition _create_prompt (query context : string) : string :=
  "You are a helpful research assistant. Answer the question based on the provided context from research papers."
  +:+ nl +:+ nl
  +:+ "Context from research papers:" +:+ nl
  +:+ context +:+ nl +:+ nl
  +:+ "Question: " +:+ query +:+ nl +:+ nl
  +:+ "Instructions:" +:+ nl
  +:+ "- Answer based ONLY on the information in the context above" +:+ nl
  +:+ "- If the context doesn't contain enough information to answer, say so" +:+ nl
  +:+ "- Be concise but comprehensive" +:+ nl
  +:+ "- Cite specific details from the context when relevant" +:+ nl +:+ nl
  +:+ "Answer:".

Definition no_results_answer : string :=
  "I couldn't find any relevant information in the documents.".

(** [response.choices[0].message.content.strip()] *)
Definition first_choice_text (response : ChatCompletion) : M string :=
  match choices response with
  | [] => raise (IndexError "list index out of range")
  | choice :: _ =>
      match message_content choice with
      | None => raise (AttributeError "'NoneType' object has no attribute 'strip'")
      | Some text => ret (str_strip text)
      end
  end.

(** Step 2 of [answer]:
    ["\n\n".join([f"[Source {i+1}]: {r['content']}" for i, r in enumerate(results)])] *)
Definition build_context (results : list SearchResult) : string :=
  str_join (nl +:+ nl)
    (map (fun '(i, r) => "[Source " +:+ pretty (i + 1) +:+ "]: " +:+ content r)
         (enumerate 0 results)).

(** The arguments of [self.client.chat.completions.create] in [answer]. *)
Definition chat_request (self : RAGChatbot) (prompt : string) : ChatRequest :=
  {| req_model := model self;
     req_messages := [mkChatMessage "user" prompt];
     req_temperature := temperature self;
     req_max_tokens := 512 |}.

Definition answer (self : RAGChatbot) (query : string) (return_sources : bool) : M Response :=
  print (nl +:+ "Processing query: " +:+ query) ;;
  print "Retrieving relevant documents..." ;;
  results <- lift_result (search (retriever self) query (Some (top_k self))) ;;
  match results with
  | [] =>
      ret {| resp_answer := no_results_answer;
             resp_sources := [];
             resp_metadata := <["retrieved_chunks" := PyInt 0]> ∅ |}
  | _ :: _ =>
      let context := build_context results in
      print ("Generating answer with " +:+ model self +:+ "...") ;;
      let prompt := _create_prompt query context in
      answer <- try_except
        (response <- groq_create (chat_request self prompt) ;;
         first_choice_text response)
        (fun e =>
           let answer := "Error generating answer: " +:+ str e in
           print ("✗ Generation error: " +:+ str e) ;;
           ret answer) ;;
      ret {| resp_answer := answer;
             resp_sources := if return_sources then results else [];
             resp_metadata :=
               <["query" := PyStr query]>
               (<["model" := PyStr (model self)]>
               (<["retrieved_chunks" := PyInt (len results)]> ∅)) |}
  end.

(** *** Vocabulary for the statements about [answer] *)

(** What [answer] retrieves for a query, or the exception of the
    retrieval. *)
Definition retrieved (self : RAGChatbot) (query : string) : result (list SearchResult) :=
  search (retriever self) query (Some (top_k self)).

(** The request [answer] sends for a query with the retrieved chunks. *)
Definition query_request (self : RAGChatbot) (query : string) (results : list SearchResult)
  : ChatRequest :=
  chat_request self (_create_prompt query (build_context results)).

(** The metadata of an answer built from retrieved chunks. *)
Definition full_metadata (self : RAGChatbot) (query : string) (results : list SearchResult)
  : pydict :=
  <["query" := PyStr query]>
  (<["model" := PyStr (model self)]>
  (<["retrieved_chunks" := PyInt (len results)]> ∅)).

(** The text [answer] settles on, from the outcome of the generation
    call: the stripped first choice, or the error message. *)
Definition settled_text (outcome : result ChatCompletion) : string :=
  match outcome with
  | Ok response =>
      match choices response with
      | [] => "Error generating answer: " +:+ "list index out of range"
      | choice :: _ =>
          match message_content choice with
          | None => "Error generating answer: "
                    +:+ "'NoneType' object has no attribute 'strip'"
          | Some text => str_strip text
          end
      end
  | Raise e => "Error generating answer: " +:+ str e
  end.

(** The metadata keys the contract of [answer] lists. *)
Definition has_contract_keys (md : pydict) : Prop :=
  is_Some (md !! "retrieved_chunks")
  /\ is_Some (md !! "model")
  /\ is_Some (md !! "query").

(** The console after the two lines [answer] always prints. *)
Definition after_retrieval (query : string) (w : World) : World :=
  mkWorld (fs w)
    ((stdout w ++ [nl +:+ "Processing query: " +:+ query])
       ++ ["Retrieving relevant documents..."])%list
    (groq_log w).
End RAGChatbot.
End chatbot_groq.

(** ** [RAGChatbot.__init__] of [src/rag_core.py]

    The constructor differs from the one of [src/chatbot_groq.py] in
    falling back on the environment for the API key. The process
    environment is an argument. *)
Module rag_core.
Import retrieval chatbot_groq.
Section RAGChatbot.
Context {rt : PyRuntime} {engine : VectorEngine}.

(** [os.getenv(name)] *)
Definition getenv (environ : gmap string string) (name : string) : option string :=
  environ !! name.

(** The rest of [__init__] once the key is settled. *)
Definition init_with_key (vectorstore_dir key model : string) (top_k : Z)
    (temperature : float) : M RAGChatbot :=
  let client := mkGroq key in
  print "Initializing retriever..." ;;
  retriever <- retrieval.__init__ vectorstore_dir default_embedding_model top_k ;;
  print ("✓ RAG Chatbot ready with " +:+ model) ;;
  ret (mkRAGChatbot model temperature top_k client retriever).

Definition __init__ (environ : gmap string string) (vectorstore_dir : string)
    (groq_api_key : option string) (model : string) (top_k : Z) (temperature : float)
  : M RAGChatbot :=
  match groq_api_key with
  | None | Some "" =>
      match getenv environ "GROQ_API_KEY" with
      | None | Some "" =>
          raise (ValueError "Please provide a Groq API key or set GROQ_API_KEY env var")
      | Some key => init_with_key vectorstore_dir key model top_k temperature
      end
  | Some key => init_with_key vectorstore_dir key model top_k temperature
  end.
End RAGChatbot.
End rag_core.

(** ** [api/query.py] *)

(** The values [json.loads] produces. A [JDict] lists the entries of
    the resulting dictionary, one per key. *)
#[warnings="-register-all"]
Inductive json {rt : PyRuntime} : Type :=
  | JNull
  | JBool (b : bool)
  | JInt (z : Z)
  | JFloat (f : float)
  | JStr (s : string)
  | JList (l : list json)
  | JDict (d : list (string * json)).

(** What the handler takes from the [json] module and the runtime:
    the parser, [json.dumps] on an error dictionary [{'error': msg}] and
    on the dictionary returned by [answer], whether a float is zero,
    the float literal [0.1], and what [answer] does when handed a
    question that is not a string. *)
Class HandlerRuntime {rt : PyRuntime} {engine : VectorEngine} : Type := {
  json_loads : string -> result json;
  json_dumps_error : string -> string;
  json_dumps_response : chatbot_groq.Response -> result string;
  float_is_zero : float -> bool;
  float_0_1 : float;
  answer_non_string : chatbot_groq.RAGChatbot -> json -> M chatbot_groq.Response
}.

Module api_query.
Import retrieval chatbot_groq.
Section handler.
Context {rt : PyRuntime} {engine : VectorEngine} {groq : GroqService}
        {hrt : HandlerRuntime}.

Record HttpRequest : Type := mkHttpRequest {
  method : string;
  body : string
}.

(** The dictionary [handler] returns. *)
Record HttpResponse : Type := mkHttpResponse {
  statusCode : Z;
  headers : list (string * string);
  response_body : string
}.

(** [bool(v)] *)
Definition truthy (v : json) : bool :=
  match v with
  | JNull => false
  | JBool b => b
  | JInt z => negb (z =? 0)
  | JFloat f => negb (float_is_zero f)
  | JStr s => negb (String.eqb s "")
  | JList l => match l with [] => false | _ :: _ => true end
  | JDict d => match d with [] => false | _ :: _ => true end
  end.

(** [type(v).__name__] *)
Definition type_name (v : json) : string :=
  match v with
  | JNull => "NoneType"
  | JBool _ => "bool"
  | JInt _ => "int"
  | JFloat _ => "float"
  | JStr _ => "str"
  | JList _ => "list"
  | JDict _ => "dict"
  end.

(** [d.get(key)] on the entries of a dictionary *)
Fixpoint entries_get (d : list (string * json)) (key : string) : json :=
  match d with
  | [] => JNull
  | (k, v) :: rest => if String.eqb k key then v else entries_get rest key
  end.

(** [body.get('question')] *)
Definition get_question (body : json) : M json :=
  match body with
  | JDict d => ret (entries_get d "question")
  | other =>
      raise (AttributeError ("'" +:+ type_name other +:+ "' object has no attribute 'get'"))
  end.

(** The module-level initialisation of [RAG_BOT]. *)
Definition init_rag_bot (environ : gmap string string) : M (option RAGChatbot) :=
  try_except
    (match environ !! "GROQ_API_KEY" with
     | None | Some "" => raise (ValueError "GROQ_API_KEY environment variable not set.")
     | Some key =>
         bot <- rag_core.__init__ environ "vectorstore" (Some key)
                  "llama-3.2-3b-preview" 4 float_0_1 ;;
         ret (Some bot)
     end)
    (fun e =>
       print ("Error initializing RAGChatbot: " +:+ str e) ;;
       ret None).

Definition cors_headers : list (string * string) :=
  [("Content-Type", "application/json");
   ("Access-Control-Allow-Origin", "*");
   ("Access-Control-Allow-Methods", "POST, OPTIONS");
   ("Access-Control-Allow-Headers", "Content-Type")].

(** The first [try] block of [handler]: the question, or the 400
    response of its [except] clause. *)
Definition parse_request (request : HttpRequest) : M (json + HttpResponse) :=
  try_except
    (body <- lift_result (json_loads (body request)) ;;
     user_query <- get_question body ;;
     if negb (truthy user_query) then
       raise (ValueError "Missing 'question' in request body.")
     else ret (inl user_query))
    (fun e =>
       ret (inr (mkHttpResponse 400 cors_headers
                   (json_dumps_error ("Invalid request body: " +:+ str e))))).

(** [RAG_BOT.answer(user_query, return_sources=True)] *)
Definition run_answer (bot : RAGChatbot) (user_query : json) : M Response :=
  match user_query with
  | JStr question => answer bot question true
  | other => answer_non_string bot other
  end.

Definition handler (RAG_BOT : option RAGChatbot) (request : HttpRequest) : M HttpResponse :=
  let headers := cors_headers in
  if String.eqb (method request) "OPTIONS" then
    ret (mkHttpResponse 200 headers "")
  else if negb (String.eqb (method request) "POST") then
    ret (mkHttpResponse 405 headers (json_dumps_error "Method Not Allowed"))
  else
    parsed <- parse_request request ;;
    match parsed with
    | inr bad_request => ret bad_request
    | inl user_query =>
        try_except
          (match RAG_BOT with
           | None => raise (mkException "Exception" "RAG Chatbot not initialized.")
           | Some bot =>
               response_data <- run_answer bot user_query ;;
               body <- lift_result (json_dumps_response response_data) ;;
               ret (mkHttpResponse 200 headers body)
           end)
          (fun e =>
             print ("Unhandled RAG error: " +:+ str e) ;;
             ret (mkHttpResponse 500 headers
                    (json_dumps_error ("Internal Server Error: " +:+ str e))))
    end.
End handler.
End api_query.

(** ** [RAGChatbot.chat] of [src/chatbot_groq.py]

    The interactive loop, run over what [input] meets on standard
    input: a line, the end of the input, or the user's interrupt. The
    prompt that [input] writes is recorded on the console like a
    printed line. *)

(** [str.lower] and the format [:.4f] of a float. *)
Class ChatRuntime {rt : PyRuntime} : Type := {
  str_lower : string -> string;
  format_4f : float -> string
}.

Inductive stdin_event : Type :=
  | Line (text : string)
  | EndOfFile
  | Interrupt.

(** How one pass through the body of [while True] ends. *)
Inductive loop_control : Type :=
  | Break
  | Continue.

(** Where the loop stands once the given input is used up. *)
Inductive loop_status : Type :=
  | Exited
  | AwaitingInput.

Module chat_loop.
Import retrieval chatbot_groq.
Section chat.
Context {rt : PyRuntime} {engine : VectorEngine} {groq : GroqService}
        {crt : ChatRuntime}.

(** [for x in l: body(x)] *)
Fixpoint for_each {A : Type} (l : list A) (body : A -> M unit) : M unit :=
  match l with
  | [] => ret tt
  | x :: rest => body x ;; for_each rest body
  end.

(** [input("You: ")] when standard input delivers a line ([Some]) or
    is at its end ([None]). *)
Definition input (line : option string) : M string :=
  print "You: " ;;
  match line with
  | Some text => ret text
  | None => raise (mkException "EOFError" "EOF when reading a line")
  end.

(** The [if result['sources']:] block. *)
Definition print_sources (sources : list SearchResult) : M unit :=
  match sources with
  | [] => ret tt
  | _ :: _ =>
      print ("📚 Sources (" +:+ pretty (len sources) +:+ " documents):") ;;
      for_each (enumerate 1 sources)
        (fun '(i, source) =>
           print ("  [" +:+ pretty i +:+ "] " +:+ py_str (retrieval.source source)
                  +:+ " (score: " +:+ format_4f (score source) +:+ ")")) ;;
      print ""
  end.

(** The body of the loop when [input] returns or raises [EOFError]. *)
Definition chat_body (self : RAGChatbot) (line : option string) : M loop_control :=
  try_except
    (raw <- input line ;;
     let query := str_strip raw in
     if bool_decide (str_lower query ∈ ["quit"; "exit"; "q"]) then
       print "Goodbye!" ;;
       ret Break
     else if String.eqb query "" then
       ret Continue
     else
       result <- answer self query true ;;
       print (nl +:+ "Assistant: " +:+ resp_answer result +:+ nl) ;;
       print_sources (resp_sources result) ;;
       ret Continue)
    (fun e =>
       print (nl +:+ "✗ Error: " +:+ str e +:+ nl) ;;
       ret Continue).

(** One pass through the body of the loop. The interrupt is taken
    while [input] waits, after the prompt is written. *)
Definition chat_iteration (self : RAGChatbot) (event : stdin_event) : M loop_control :=
  match event with
  | Line text => chat_body self (Some text)
  | EndOfFile => chat_body self None
  | Interrupt =>
      print "You: " ;;
      print (nl +:+ nl +:+ "Goodbye!") ;;
      ret Break
  end.

(** [chat] over the events standard input delivers. *)
Fixpoint chat_from (self : RAGChatbot) (events : list stdin_event) : M loop_status :=
  match events with
  | [] => ret AwaitingInput
  | event :: rest =>
      control <- chat_iteration self event ;;
      match control with
      | Break => ret Exited
      | Continue => chat_from self rest
      end
  end.

Definition chat (self : RAGChatbot) (events : list stdin_event) : M loop_status :=
  print (nl +:+ str_repeat "=" 50) ;;
  print "RAG Chatbot - Interactive Mode" ;;
  print (str_repeat "=" 50) ;;
  print ("Type 'quit' or 'exit' to end the conversation" +:+ nl) ;;
  chat_from self events.
End chat.
End chat_loop.

(** ** A small instance of the collaborators

    Scores are natural numbers and floats count ten-thousandths; the
    embedding of a text is its length and the distance of two
    embeddings their difference; the splitter keeps each page whole.
    It serves to run the model on concrete inputs. *)
Module Demo.
Definition is_space (c : ascii) : bool :=
  let n := nat_of_ascii c in
  ((9 <=? n) && (n <=? 13) || (28 <=? n) && (n <=? 32))%nat.

Fixpoint lstrip (s : string) : string :=
  match s with
  | String c rest => if is_space c then lstrip rest else s
  | EmptyString => EmptyString
  end.

Definition strip (s : string) : string :=
  String.rev (lstrip (String.rev (lstrip s))).

#[local] Instance runtime : PyRuntime :=
  {| raw_score := nat;
     float := Z;
     float_of := fun score => 10000 * Z.of_nat score;
     raw_le := Nat.le;
     raw_leb := Nat.leb;
     float_le := Z.le;
     str_strip := strip |}.

#[local] Instance engine : VectorEngine :=
  {| vector := nat;
     embed := fun _ text => String.length text;
     distance := fun a b => (Nat.max a b - Nat.min a b)%nat;
     build_index := fun _ chunks =>
       match chunks with
       | [] => Raise (IndexError "list index out of range")
       | _ :: _ => Ok (map (fun chunk => (chunk, String.length (page_content chunk))) chunks)
       end;
     split_documents := fun _ docs => docs |}.

Definition groq_up : GroqService :=
  {| chat_completions_create := fun _ _ =>
       Ok (mkChatCompletion [mkChoice (Some "  Attention relates every token to every other. ")]) |}.

Definition groq_down : GroqService :=
  {| chat_completions_create := fun _ _ =>
       Raise (mkException "APIConnectionError" "Connection error.") |}.

Definition paper_page : Document :=
  mkDocument "Attention is all you need."
    (<["source" := PyStr "data/attention.pdf"]> (<["page" := PyInt 0]> ∅)).

Definition loose_page : Document :=
  mkDocument "Residual connections ease the optimisation of deep networks."
    (<["page" := PyInt 3]> ∅).

Definition short_page : Document :=
  mkDocument "Dropout."
    (<["source" := PyStr "data/dropout.pdf"]> ∅).

Definition sidecar : pydict :=
  <["chunk_overlap" := PyInt 200]>
  (<["chunk_size" := PyInt 1000]>
  (<["num_chunks" := PyInt 3]> ∅)).

Definition embeddings : HuggingFaceEmbeddings := mkEmbeddings default_embedding_model "cpu".

(** The index that ingestion builds from the given chunks. *)
Definition index_of (chunks : list Document) : Index :=
  map (fun chunk => (chunk, embed embeddings (page_content chunk))) chunks.

Definition two_chunks : Index := index_of [paper_page; loose_page].

(** An index of two chunks and no sidecar record. *)
Definition bare_dir : Dir := mkDir (Ok []) (Some two_chunks) None.

Definition disk : gmap string Dir :=
  <["vectorstore" :=
      mkDir (Ok []) (Some (index_of [paper_page; loose_page; short_page])) (Some sidecar)]>
  (<["bare_store" := bare_dir]>
  (<["data" := mkDir (Ok []) None None]> ∅)).

Definition world : World := mkWorld disk [] [].

Definition retriever_on (docs : list Document) (md : pydict) : retrieval.Retriever :=
  retrieval.mkRetriever "vectorstore" 4 embeddings
    (vectorstores.mkFAISS (index_of docs) embeddings) md.

Definition chatbot_on (docs : list Document) : chatbot_groq.RAGChatbot :=
  chatbot_groq.mkRAGChatbot "llama-3.2-3b-preview" 1000 4
    (chatbot_groq.mkGroq "gsk_demo") (retriever_on docs sidecar).

(** The same chatbot asked to retrieve [top_k] chunks. *)
Definition chatbot_with_top_k (top_k : Z) : chatbot_groq.RAGChatbot :=
  chatbot_groq.mkRAGChatbot "llama-3.2-3b-preview" 1000 top_k
    (chatbot_groq.mkGroq "gsk_demo") (retriever_on [paper_page; loose_page] sidecar).

Definition ingestor : ingest.DocumentIngestor :=
  ingest.mkDocumentIngestor "data" "vectorstore" 1000 200 embeddings
    (mkTextSplitter 1000 200 [nl +:+ nl; nl; " "; ""]).
End Demo.

(** ** The instance extended to the HTTP handler

    The parser knows the empty body, the empty list and object, and
    objects with the single key [question] bound to a string; the
    serialisers do no escaping. *)
Module DemoApi.
#[local] Existing Instance Demo.runtime.
#[local] Existing Instance Demo.engine.

Definition dq : string := String (ascii_of_nat 34) EmptyString.

Definition question_prefix : string := "{" +:+ dq +:+ "question" +:+ dq +:+ ": " +:+ dq.
Definition question_suffix : string := dq +:+ "}".

Definition loads (s : string) : result json :=
  if String.eqb s "[]" then Ok (JList [])
  else if String.eqb s "{}" then Ok (JDict [])
  else if String.prefix question_prefix s
          && String.eqb (String.substring (String.length s - 2) 2 s) question_suffix
  then Ok (JDict [("question",
                   JStr (String.substring (String.length question_prefix)
                           (String.length s - String.length question_prefix - 2) s))])
  else Raise (mkException "JSONDecodeError" "Expecting value: line 1 column 1 (char 0)").

Definition dumps_error (msg : string) : string :=
  "{" +:+ dq +:+ "error" +:+ dq +:+ ": " +:+ dq +:+ msg +:+ dq +:+ "}".

Definition dumps_response (r : chatbot_groq.Response) : result string :=
  Ok ("{" +:+ dq +:+ "answer" +:+ dq +:+ ": " +:+ dq +:+ chatbot_groq.resp_answer r
      +:+ dq +:+ "}").

#[local] Instance handler_runtime : HandlerRuntime :=
  {| json_loads := loads;
     json_dumps_error := dumps_error;
     json_dumps_response := dumps_response;
     float_is_zero := fun f => f =? 0;
     float_0_1 := 1000;
     answer_non_string := fun _ v =>
       raise (AttributeError
                ("'" +:+ api_query.type_name v +:+ "' object has no attribute 'replace'")) |}.

Definition lower_char (c : ascii) : ascii :=
  let n := nat_of_ascii c in
  if ((65 <=? n) && (n <=? 90))%nat then ascii_of_nat (n + 32) else c.

Fixpoint lower (s : string) : string :=
  match s with
  | EmptyString => EmptyString
  | String c rest => String (lower_char c) (lower rest)
  end.

(** A count of ten-thousandths with four decimals. *)
Definition four_decimals (f : Z) : string :=
  let decimals := pretty (f mod 10000) in
  pretty (f / 10000) +:+ "."
  +:+ str_repeat "0" (4 - String.length decimals) +:+ decimals.

#[local] Instance chat_runtime : ChatRuntime :=
  {| str_lower := lower;
     format_4f := four_decimals |}.

Definition ask (question : string) : api_query.HttpRequest :=
  api_query.mkHttpRequest "POST" (question_prefix +:+ question +:+ question_suffix).

Definition environ : gmap string string := <["GROQ_API_KEY" := "gsk_demo"]> ∅.

(** A service whose completions hold no choice. *)
Definition groq_empty : GroqService :=
  {| chat_completions_create := fun _ _ => Ok (mkChatCompletion []) |}.

Definition papers_dir : Dir := mkDir (Ok [Demo.paper_page; Demo.loose_page]) None None.

Definition broken_dir : Dir :=
  mkDir (Raise (mkException "PdfReadError" "EOF marker not found")) None None.

(** A disk with two pages to ingest, a directory whose PDF does not
    parse, and no vector store yet. *)
Definition library_world : World :=
  mkWorld (<["papers" := papers_dir]> (<["broken" := broken_dir]> ∅)) [] [].

Definition ingestor_of (data_dir : string) : ingest.DocumentIngestor :=
  ingest.mkDocumentIngestor data_dir "vectorstore" 1000 200 Demo.embeddings
    (mkTextSplitter 1000 200 [nl +:+ nl; nl; " "; ""]).

(** An ingestor whose store goes below a directory that is not there
    yet. *)
Definition nested_ingestor : ingest.DocumentIngestor :=
  ingest.mkDocumentIngestor "papers" "out/store" 1000 200 Demo.embeddings
    (mkTextSplitter 1000 200 [nl +:+ nl; nl; " "; ""]).
End DemoApi.

(** ** An instance whose index cannot be built *)
Module DemoOffline.
#[local] Existing Instance Demo.runtime.

#[local] Instance engine : VectorEngine :=
  {| vector := nat;
     embed := fun _ text => String.length text;
     distance := fun a b => (Nat.max a b - Nat.min a b)%nat;
     build_index := fun _ _ => Raise (mkException "OSError" "embedding model not found");
     split_documents := fun _ docs => docs |}.

Definition papers_dir : Dir := mkDir (Ok [Demo.paper_page]) None None.

Definition world : World := mkWorld (<["papers" := papers_dir]> ∅) [] [].

Definition ingestor : ingest.DocumentIngestor :=
  ingest.mkDocumentIngestor "papers" "vectorstore" 1000 200 Demo.embeddings
    (mkTextSplitter 1000 200 [nl +:+ nl; nl; " "; ""]).
End DemoOffline.
(** * Properties *)

(** ** The accumulating loop of [search] *)

(** A [for a, b in l: acc.append(f(a, b))] loop computes a map. *)
Lemma fold_left_append_map {A B C : Type} (f : A -> B -> C) (l : list (A * B)) (acc : list C) :
  fold_left (fun acc '(a, b) => (acc ++ [f a b])%list) l acc
  = (acc ++ map (fun '(a, b) => f a b) l)%list.
Proof.
  revert acc. induction l as [|[a b] l IH]; intros acc; simpl.
  - by rewrite app_nil_r.
  - rewrite IH. by rewrite <- app_assoc.
Qed.

(** ** The modelled store ranks and bounds its answers *)

Lemma Sorted_take {A : Type} (R : relation A) (n : nat) (l : list A) :
  Sorted R l -> Sorted R (take n l).
Proof.
  revert n. induction l as [|x l IH]; intros n Hsorted.
  - by destruct n.
  - destruct n as [|n]; simpl; [constructor |].
    inversion Hsorted as [|? ? Hrest Hhead]; subst.
    constructor; [by apply IH |].
    destruct n as [|n]; simpl; [constructor |].
    destruct l as [|y l]; simpl; [constructor |].
    inversion Hhead; subst. by constructor.
Qed.

Section StoreProperties.
Context {rt : PyRuntime} {engine : VectorEngine}.

Lemma elem_of_insert_by_score (x p : Document * raw_score) (l : list (Document * raw_score)) :
  x ∈ insert_by_score p l -> x = p \/ x ∈ l.
Proof.
  induction l as [|q rest IH]; simpl.
  - intros Hin. apply list_elem_of_singleton in Hin. by left.
  - destruct (raw_leb (snd p) (snd q)).
    + intros Hin. apply elem_of_cons in Hin as [-> | Hin]; [by left | by right].
    + intros Hin. apply elem_of_cons in Hin as [-> | Hin].
      * right. apply list_elem_of_here.
      * destruct (IH Hin) as [-> | Hrest]; [by left |].
        right. by apply list_elem_of_further.
Qed.

Lemma elem_of_rank_by_score (x : Document * raw_score) (l : list (Document * raw_score)) :
  x ∈ rank_by_score l -> x ∈ l.
Proof.
  induction l as [|p l IH]; simpl; [done |].
  intros Hin. apply elem_of_insert_by_score in Hin as [-> | Hin].
  - apply list_elem_of_here.
  - apply list_elem_of_further. by apply IH.
Qed.

Lemma length_insert_by_score (p : Document * raw_score) (l : list (Document * raw_score)) :
  length (insert_by_score p l) = S (length l).
Proof.
  induction l as [|q rest IH]; simpl; [done |].
  destruct (raw_leb (snd p) (snd q)); simpl; [done | by rewrite IH].
Qed.

Lemma length_rank_by_score (l : list (Document * raw_score)) :
  length (rank_by_score l) = length l.
Proof.
  induction l as [|p l IH]; simpl; [done |].
  by rewrite length_insert_by_score, IH.
Qed.

Section Ordered.
Context {ordered : OrderedScores}.

Lemma insert_by_score_sorted (p : Document * raw_score) (l : list (Document * raw_score)) :
  Sorted by_score l -> Sorted by_score (insert_by_score p l).
Proof.
  induction l as [|q rest IH]; simpl; intros Hsorted.
  - repeat constructor.
  - destruct (raw_leb (snd p) (snd q)) eqn:Hle.
    + constructor; [exact Hsorted |]. constructor. by apply raw_leb_le.
    + inversion Hsorted as [|? ? Hrest Hhead]; subst.
      assert (Hqp : by_score q p).
      { destruct (raw_le_total (snd p) (snd q)) as [Hpq | Hqp]; [| exact Hqp].
        apply raw_leb_le in Hpq. congruence. }
      constructor; [by apply IH |].
      destruct rest as [|r rest]; simpl.
      * by constructor.
      * destruct (raw_leb (snd p) (snd r)); constructor; [exact Hqp |].
        by inversion Hhead.
Qed.

Lemma rank_by_score_sorted (l : list (Document * raw_score)) :
  Sorted by_score (rank_by_score l).
Proof.
  induction l as [|p l IH]; simpl; [constructor |].
  by apply insert_by_score_sorted.
Qed.
End Ordered.

(** What the store answers for a positive [k]. *)
Lemma knn_positive (emb : HuggingFaceEmbeddings) (idx : Index) (query : string) (k : Z) :
  1 <= k ->
  knn emb idx query k
  = Ok (take (Z.to_nat k)
          (rank_by_score
             (map (fun '(chunk, v) => (chunk, distance (embed emb query) v)) idx))).
Proof.
  intros Hk. unfold knn.
  by replace (k <=? 0) with false by (symmetry; apply Z.leb_gt; lia).
Qed.

(** The engine's assertion. *)
Lemma knn_not_positive (emb : HuggingFaceEmbeddings) (idx : Index) (query : string) (k : Z) :
  k <= 0 -> knn emb idx query k = Raise (AssertionError "").
Proof.
  intros Hk. unfold knn.
  by replace (k <=? 0) with true by (symmetry; apply Z.leb_le; lia).
Qed.
End StoreProperties.

(** ** [Retriever.search] *)

Section RetrieverProperties.
Context {rt : PyRuntime} {engine : VectorEngine}.
Import vectorstores retrieval.

Lemma search_formats_store_results (self : Retriever) (query : string) (k : option Z) :
  search self query k =
  match similarity_search_with_score (vectorstore self) query (effective_k self k) with
  | Ok raw => Ok (map (fun '(doc, score) => format_result doc score) raw)
  | Raise e => Raise e
  end.
Proof.
  unfold search, effective_k.
  destruct (similarity_search_with_score _ _ _) as [raw | e]; [| done].
  by rewrite fold_left_append_map.
Qed.

Lemma format_results_scores (raw : list (Document * raw_score)) :
  map score (map (fun '(doc, score) => format_result doc score) raw)
  = map float_of (map snd raw).
Proof. rewrite !map_map. apply map_ext. by intros [doc s]. Qed.

Lemma format_results_carry (raw : list (Document * raw_score)) :
  Forall2 carries (map (fun '(doc, score) => format_result doc score) raw) raw.
Proof.
  induction raw as [|[doc s] raw IH]; simpl.
  - constructor.
  - constructor; [by repeat split | exact IH].
Qed.

(** C4. For every non-empty query and every [k >= 1], [search(query,
    k)] returns a list of at most [k] results, best first: the scores
    are in ascending order. The results are those of the store in the
    store's order, each carrying the content and the metadata of a
    chunk of the index, as score the distance of that chunk to the
    query, and the source read from the metadata. Without [k], the
    retriever's [top_k] is used. *)
Theorem search_at_most_k_best_first {ordered : OrderedScores}
    (self : Retriever) (query : string) (k : Z) :
  query <> "" ->
  1 <= k ->
  exists (results : list SearchResult) (raw : list (Document * raw_score)),
    search self query (Some k) = Ok results
    /\ len results <= k
    /\ Sorted float_le (map score results)
    /\ similarity_search_with_score (vectorstore self) query k = Ok raw
    /\ Forall2 carries results raw
    /\ (forall p, p ∈ raw ->
          exists v, (fst p, v) ∈ index (vectorstore self)
                    /\ snd p = distance (embed (embedding_function (vectorstore self)) query) v)
    /\ search self query None = search self query (Some (top_k self)).
Proof.
  intros _ Hk.
  rewrite search_formats_store_results. simpl.
  unfold similarity_search_with_score. rewrite (knn_positive _ _ _ _ Hk).
  set (scored := map _ (index (vectorstore self))).
  eexists _, _. split; [reflexivity |].
  split; [| split; [| split; [reflexivity | split; [| split; [| reflexivity]]]]].
  - unfold len. rewrite length_map, length_take. lia.
  - rewrite format_results_scores.
    apply (Sorted_fmap float_of raw_le float_le); [apply float_of_mono |].
    apply (Sorted_fmap snd by_score raw_le); [done |].
    apply Sorted_take, rank_by_score_sorted.
  - apply format_results_carry.
  - intros p Hin. apply (subseteq_take (Z.to_nat k)) in Hin.
    apply elem_of_rank_by_score in Hin. subst scored.
    apply list_elem_of_fmap in Hin as [[chunk v] [-> Hin]].
    exists v. by split.
Qed.

(** C10. A result of [search] whose metadata has no ['source'] key has
    the string ['Unknown'] as its source. *)
Theorem search_source_defaults_to_unknown
    (self : Retriever) (query : string) (k : option Z)
    (results : list SearchResult) (r : SearchResult) :
  search self query k = Ok results ->
  r ∈ results ->
  metadata r !! "source" = None ->
  source r = PyStr "Unknown".
Proof.
  rewrite search_formats_store_results.
  destruct (similarity_search_with_score _ _ _) as [raw | e]; [| discriminate].
  intros [= <-] Hin Hnone.
  apply list_elem_of_fmap in Hin as [[doc s] [-> _]].
  simpl in *. unfold dict_get. by rewrite Hnone.
Qed.
End RetrieverProperties.

(** ** Directories *)

Section FilesystemProperties.
Context {rt : PyRuntime} {engine : VectorEngine}.

Lemma lookup_ensure_dir (files : gmap string Dir) (p q : string) :
  ensure_dir files p !! q
  = match files !! q with
    | Some d => Some d
    | None => if bool_decide (q = p) then Some empty_dir else None
    end.
Proof.
  unfold ensure_dir. destruct (files !! p) as [d |] eqn:Hp.
  - destruct (files !! q) as [d' |] eqn:Hq; [done |].
    case_bool_decide as Heq; [| done]. subst. congruence.
  - destruct (decide (q = p)) as [-> | Hne].
    + rewrite lookup_insert_eq, Hp. by rewrite bool_decide_eq_true_2.
    + rewrite lookup_insert_ne by done.
      destruct (files !! q); [done |]. by rewrite bool_decide_eq_false_2.
Qed.

(** Creating a chain of directories keeps every directory there is and
    adds the missing ones of the chain, empty. *)
Lemma lookup_ensure_dirs (paths : list string) (files : gmap string Dir) (q : string) :
  fold_left ensure_dir paths files !! q
  = match files !! q with
    | Some d => Some d
    | None => if bool_decide (q ∈ paths) then Some empty_dir else None
    end.
Proof.
  revert files. induction paths as [|p paths IH]; intros files.
  - cbn [fold_left]. destruct (files !! q); [done |].
    case_bool_decide as Hin; [| done]. by apply elem_of_nil in Hin.
  - change (fold_left ensure_dir (p :: paths) files)
      with (fold_left ensure_dir paths (ensure_dir files p)).
    rewrite IH, lookup_ensure_dir.
    destruct (files !! q) as [d |]; [done |].
    destruct (decide (q = p)) as [-> | Hne].
    + rewrite (bool_decide_eq_true_2 (p = p)) by done.
      by rewrite (bool_decide_eq_true_2 (p ∈ p :: paths)) by (apply elem_of_cons; by left).
    + rewrite (bool_decide_eq_false_2 (q = p)) by done.
      by rewrite (bool_decide_ext (q ∈ p :: paths) (q ∈ paths))
        by (rewrite elem_of_cons; intuition congruence).
Qed.

Lemma ensure_dirs_twice (paths : list string) (files : gmap string Dir) :
  fold_left ensure_dir paths (fold_left ensure_dir paths files)
  = fold_left ensure_dir paths files.
Proof.
  apply map_eq. intros q. rewrite !lookup_ensure_dirs.
  destruct (files !! q) as [d |]; [done |].
  by case_bool_decide.
Qed.
End FilesystemProperties.

(** ** Loading the store *)

Section RetrieverLoading.
Context {rt : PyRuntime} {engine : VectorEngine}.
Import vectorstores retrieval.

(** Loading from a directory that holds an index succeeds, with the
    sidecar record if there is one and the empty dictionary if not. *)
Lemma retriever_loads_persisted_index
    (vectorstore_dir embedding_model : string) (top_k : Z) (w : World)
    (d : Dir) (idx : Index) :
  fs w !! vectorstore_dir = Some d ->
  faiss_index d = Some idx ->
  exists w',
    __init__ vectorstore_dir embedding_model top_k w
    = (Ok (mkRetriever vectorstore_dir top_k (mkEmbeddings embedding_model "cpu")
             (mkFAISS idx (mkEmbeddings embedding_model "cpu"))
             (default ∅ (metadata_pkl d))), w')
    /\ fs w' = fs w.
Proof.
  intros Hdir Hidx.
  unfold __init__, _load_vectorstore, _load_metadata, load_local, path_exists,
    bind, print, ret.
  simpl. rewrite Hdir. rewrite bool_decide_eq_true_2 by eauto.
  simpl. rewrite Hdir, Hidx. simpl. rewrite Hdir.
  destruct (metadata_pkl d) as [md |]; simpl; eexists; by split.
Qed.

(** C5. When the vector store directory does not exist, constructing
    a [Retriever] raises the store-not-found error, leaves the
    filesystem and the generation log as they were, and yields no
    [Retriever] on which [search] could be called. *)
Theorem retriever_needs_store_directory
    (vectorstore_dir embedding_model : string) (top_k : Z) (w : World) :
  fs w !! vectorstore_dir = None ->
  (exists w',
      __init__ vectorstore_dir embedding_model top_k w
      = (Raise (FileNotFoundError
                  ("Vector store not found at " +:+ vectorstore_dir
                   +:+ ". Please run ingest.py first.")), w')
      /\ fs w' = fs w /\ groq_log w' = groq_log w)
  /\ (forall (r : Retriever) (w' : World),
        __init__ vectorstore_dir embedding_model top_k w <> (Ok r, w')).
Proof.
  intros Hmissing.
  assert (Hrun : exists w',
      __init__ vectorstore_dir embedding_model top_k w
      = (Raise (FileNotFoundError
                  ("Vector store not found at " +:+ vectorstore_dir
                   +:+ ". Please run ingest.py first.")), w')
      /\ fs w' = fs w /\ groq_log w' = groq_log w).
  { eexists. unfold __init__, _load_vectorstore, bind, print, path_exists, raise.
    simpl. rewrite Hmissing.
    rewrite bool_decide_eq_false_2 by (intros [d Hd]; discriminate).
    simpl. split; [reflexivity | by split]. }
  split; [exact Hrun |].
  destruct Hrun as (w1 & Hrun & _). intros r w' Hok. congruence.
Qed.
End RetrieverLoading.

(** ** [RAGChatbot.answer] *)

Section AnswerProperties.
Context {rt : PyRuntime} {engine : VectorEngine}.
Import retrieval chatbot_groq.

(** The three ways [answer] can end, spelled out: the retrieval raises
    and so does [answer]; without retrieved chunks it returns the
    fallback at once; with some it makes one generation call and wraps
    whatever text it settles on. *)
Lemma answer_retrieval_raises {groq : GroqService}
    (self : RAGChatbot) (query : string) (return_sources : bool) (w : World)
    (e : Exception) :
  retrieved self query = Raise e ->
  answer self query return_sources w = (Raise e, after_retrieval query w).
Proof.
  unfold retrieved. intros Hraise.
  unfold answer, bind, print, lift_result. simpl. by rewrite Hraise.
Qed.

Lemma answer_without_results {groq : GroqService}
    (self : RAGChatbot) (query : string) (return_sources : bool) (w : World) :
  retrieved self query = Ok [] ->
  answer self query return_sources w
  = (Ok {| resp_answer := no_results_answer;
           resp_sources := [];
           resp_metadata := <["retrieved_chunks" := PyInt 0]> ∅ |},
     after_retrieval query w).
Proof.
  unfold retrieved. intros Hnone.
  unfold answer, bind, print, ret, lift_result. simpl. by rewrite Hnone.
Qed.

Lemma answer_with_results {groq : GroqService}
    (self : RAGChatbot) (query : string) (return_sources : bool) (w : World)
    (results : list SearchResult) :
  retrieved self query = Ok results ->
  results <> [] ->
  exists w',
    answer self query return_sources w
    = (Ok {| resp_answer :=
               settled_text
                 (chat_completions_create (groq_log w) (query_request self query results));
             resp_sources := if return_sources then results else [];
             resp_metadata := full_metadata self query results |}, w')
    /\ fs w' = fs w
    /\ groq_log w' = (groq_log w ++ [query_request self query results])%list
    /\ w' = snd (answer self query (negb return_sources) w).
Proof.
  unfold query_request, full_metadata, retrieved. intros Hres Hsome.
  unfold answer, bind, print, ret, try_except, groq_create, lift_result. simpl.
  rewrite Hres. destruct results as [|r0 rest]; [done |].
  simpl.
  destruct (chat_completions_create _ _) as [response | e]; simpl.
  - unfold first_choice_text, raise, ret.
    destruct (choices response) as [|choice others]; simpl.
    + eexists. split; [reflexivity | by repeat split].
    + destruct (message_content choice) as [text |]; simpl;
        eexists; (split; [reflexivity | by repeat split]).
  - eexists. split; [reflexivity | by repeat split].
Qed.

(** The run of [answer] when the first choice of the completion has a
    text. *)
Lemma answer_with_first_choice {groq : GroqService}
    (self : RAGChatbot) (query : string) (return_sources : bool) (w : World)
    (results : list SearchResult) (text : string) (others : list Choice) :
  retrieved self query = Ok results ->
  results <> [] ->
  chat_completions_create (groq_log w) (query_request self query results)
  = Ok (mkChatCompletion (mkChoice (Some text) :: others)) ->
  answer self query return_sources w
  = (Ok {| resp_answer := str_strip text;
           resp_sources := if return_sources then results else [];
           resp_metadata := full_metadata self query results |},
     mkWorld (fs w)
       (stdout (after_retrieval query w)
          ++ ["Generating answer with " +:+ model self +:+ "..."])%list
       (groq_log w ++ [query_request self query results])%list).
Proof.
  unfold query_request, full_metadata, retrieved. intros Hres Hsome Hcreate.
  unfold answer, bind, print, ret, try_except, groq_create, lift_result. simpl.
  rewrite Hres. destruct results as [|r0 rest]; [done |].
  simpl. by rewrite Hcreate.
Qed.
End AnswerProperties.

Section AnswerClaims.
Context {rt : PyRuntime} {engine : VectorEngine}.
Import retrieval chatbot_groq.

(** C1. When the retriever returns no result for the query, [answer]
    returns the fixed fallback text with an empty source list, and no
    request reaches the generation service. *)
Theorem answer_short_circuits_without_results {groq : GroqService}
    (self : RAGChatbot) (query : string) (return_sources : bool) (w : World) :
  search (retriever self) query (Some (top_k self)) = Ok [] ->
  exists (r : Response) (w' : World),
    answer self query return_sources w = (Ok r, w')
    /\ resp_answer r = "I couldn't find any relevant information in the documents."
    /\ resp_sources r = []
    /\ groq_log w' = groq_log w.
Proof.
  intros Hnone.
  exists {| resp_answer := no_results_answer;
            resp_sources := [];
            resp_metadata := <["retrieved_chunks" := PyInt 0]> ∅ |},
         (after_retrieval query w).
  split; [by apply answer_without_results | by repeat split].
Qed.

(** C2. When retrieval returns chunks and the generation call raises,
    [answer] still returns: its answer field is the non-empty text
    ["Error generating answer: "] followed by the error message, its
    sources are the retrieved results (the empty list when
    [return_sources] is false), and its metadata is the dictionary with
    the number of retrieved chunks, the model and the query. Sources
    and metadata are those [answer] returns under any other behaviour of
    the generation service, a successful one included. *)
Theorem answer_survives_generation_failure {groq : GroqService}
    (self : RAGChatbot) (query : string) (return_sources : bool) (w : World)
    (results : list SearchResult) (e : Exception) :
  search (retriever self) query (Some (top_k self)) = Ok results ->
  results <> [] ->
  chat_completions_create (groq_log w) (query_request self query results) = Raise e ->
  exists (r : Response) (w' : World),
    answer self query return_sources w = (Ok r, w')
    /\ resp_answer r = "Error generating answer: " +:+ str e
    /\ resp_answer r <> ""
    /\ resp_sources r = (if return_sources then results else [])
    /\ resp_metadata r
       = <["query" := PyStr query]>
         (<["model" := PyStr (model self)]>
         (<["retrieved_chunks" := PyInt (len results)]> ∅))
    /\ forall other : GroqService,
        exists (r' : Response) (w'' : World),
          answer (groq := other) self query return_sources w = (Ok r', w'')
          /\ resp_sources r' = resp_sources r
          /\ resp_metadata r' = resp_metadata r.
Proof.
  intros Hres Hsome Hraise.
  destruct (answer_with_results self query return_sources w results Hres Hsome)
    as (w' & Hrun & _).
  rewrite Hraise in Hrun. simpl in Hrun.
  eexists _, w'. split; [exact Hrun |]. simpl.
  split; [reflexivity |]. split; [discriminate |].
  split; [reflexivity |]. split; [reflexivity |].
  intros other.
  destruct (answer_with_results (groq := other) self query return_sources w results
              Hres Hsome)
    as (w'' & Hother & _).
  eexists _, w''. split; [exact Hother |]. by split.
Qed.

(** C3, as the code has it. When the retrieval does not raise,
    [answer] returns an object with an answer string, a list of search
    results and a metadata dictionary. With retrieved chunks the
    dictionary has the keys ['retrieved_chunks'], ['model'] and
    ['query']; without any it is exactly [{'retrieved_chunks': 0}].
    When the retrieval raises, which the store does for [top_k <= 0],
    [answer] returns no object: the exception leaves it. *)
Theorem answer_result_shape {groq : GroqService}
    (self : RAGChatbot) (query : string) (return_sources : bool) (w : World) :
  match search (retriever self) query (Some (top_k self)) with
  | Ok [] =>
      exists (r : Response) (w' : World),
        answer self query return_sources w = (Ok r, w')
        /\ resp_metadata r = <["retrieved_chunks" := PyInt 0]> ∅
  | Ok results =>
      exists (r : Response) (w' : World),
        answer self query return_sources w = (Ok r, w')
        /\ resp_metadata r !! "retrieved_chunks" = Some (PyInt (len results))
        /\ resp_metadata r !! "model" = Some (PyStr (model self))
        /\ resp_metadata r !! "query" = Some (PyStr query)
  | Raise e =>
      exists w' : World, answer self query return_sources w = (Raise e, w')
  end.
Proof.
  destruct (search (retriever self) query (Some (top_k self)))
    as [[|r0 rest] | e] eqn:Hres.
  - eexists _, _. split; [by apply answer_without_results | done].
  - destruct (answer_with_results self query return_sources w (r0 :: rest) Hres)
      as (w' & Hrun & _); [done |].
    eexists _, w'. split; [exact Hrun |]. simpl. unfold full_metadata.
    split; [|split].
    + rewrite !lookup_insert_ne by done. by rewrite lookup_insert_eq.
    + rewrite !lookup_insert_ne by done. by rewrite lookup_insert_eq.
    + by rewrite lookup_insert_eq.
  - eexists. by apply answer_retrieval_raises.
Qed.

(** C6. On the same query and in the same world, [answer] with
    [return_sources=False] does what it does with
    [return_sources=True]. When the retrieval returns, both calls
    return, the one with [True] has the retrieved results as sources,
    and the one with [False] returns the same object except that the
    sources are the empty list; when the retrieval raises, both raise
    its exception. Either way both calls leave the same world: the same
    console output and the same requests in the generation log. *)
Theorem return_sources_only_hides_sources {groq : GroqService}
    (self : RAGChatbot) (query : string) (w : World) :
  match search (retriever self) query (Some (top_k self)) with
  | Ok results =>
      exists (with_sources : Response) (w' : World),
        answer self query true w = (Ok with_sources, w')
        /\ answer self query false w
           = (Ok {| resp_answer := resp_answer with_sources;
                    resp_sources := [];
                    resp_metadata := resp_metadata with_sources |}, w')
        /\ resp_sources with_sources = results
  | Raise e =>
      exists w' : World,
        answer self query true w = (Raise e, w')
        /\ answer self query false w = (Raise e, w')
  end.
Proof.
  destruct (search (retriever self) query (Some (top_k self)))
    as [[|r0 rest] | e] eqn:Hres.
  - eexists _, _. split; [by apply answer_without_results |].
    split; [by apply answer_without_results | done].
  - destruct (answer_with_results self query true w (r0 :: rest) Hres)
      as (w1 & Hon & _ & _ & Hsame); [done |].
    destruct (answer_with_results self query false w (r0 :: rest) Hres)
      as (w2 & Hoff & _); [done |].
    simpl in Hsame. rewrite Hoff in Hsame. simpl in Hsame. subst w2.
    eexists _, w1. split; [exact Hon |]. split; [exact Hoff | done].
  - eexists. split; by apply answer_retrieval_raises.
Qed.
End AnswerClaims.

(** ** The ingestion pipeline *)

Section IngestProperties.
Context {rt : PyRuntime} {engine : VectorEngine}.
Import vectorstores ingest.

(** C8. When the data directory exists and holds no document, [ingest]
    returns without raising, its last console line is the
    no-documents warning, and the filesystem, the vector store
    directory included, is as it was. *)
Theorem ingest_without_documents_writes_nothing
    (self : DocumentIngestor) (w : World) (d : Dir) :
  fs w !! data_dir self = Some d ->
  pdfs d = Ok [] ->
  exists w' : World,
    ingest self w = (Ok tt, w')
    /\ fs w' = fs w
    /\ fs w' !! vectorstore_dir self = fs w !! vectorstore_dir self
    /\ last (stdout w')
       = Some "⚠ No documents found. Please add PDF files to the data/ directory".
Proof.
  intros Hdir Hpdfs.
  eexists. split.
  - unfold ingest, try_except, bind, print, load_documents, path_exists,
      directory_loader_load, bind, print, ret.
    simpl. rewrite Hdir.
    rewrite bool_decide_eq_true_2 by eauto.
    simpl. rewrite Hdir, Hpdfs. simpl. reflexivity.
  - simpl. split; [done |]. split; [done |].
    by rewrite last_snoc.
Qed.

(** What [save_vectorstore] leaves on disk: the directory and its
    missing ancestors are created, the directory then holds the index
    and the sidecar record, and its PDFs are as before. *)
Lemma save_vectorstore_writes (self : DocumentIngestor) (vectorstore : FAISS) (w : World) :
  exists w' : World,
    save_vectorstore self vectorstore w = (Ok tt, w')
    /\ fs w'
       = <[vectorstore_dir self :=
             mkDir (pdfs (default empty_dir (fs w !! vectorstore_dir self)))
               (Some (index vectorstore))
               (Some (sidecar_metadata self vectorstore))]>
         (fold_left ensure_dir
            (path_parents (vectorstore_dir self) ++ [vectorstore_dir self])%list (fs w))
    /\ groq_log w' = groq_log w.
Proof.
  set (chain := (path_parents (vectorstore_dir self) ++ [vectorstore_dir self])%list).
  assert (Hmade : fold_left ensure_dir chain (fs w) !! vectorstore_dir self
                  = Some (default empty_dir (fs w !! vectorstore_dir self))).
  { rewrite lookup_ensure_dirs.
    destruct (fs w !! vectorstore_dir self) as [d |]; [done |].
    rewrite bool_decide_eq_true_2; [done |].
    unfold chain. apply elem_of_app. right. apply elem_of_cons. by left. }
  unfold save_vectorstore, save_local, pickle_dump_metadata, update_dir, mkdir,
    bind, print, ret.
  cbn [fs stdout groq_log fst snd]. fold chain.
  rewrite ensure_dirs_twice, Hmade. cbn [fs stdout groq_log].
  rewrite lookup_insert_eq.
  eexists. split; [reflexivity |]. cbn [fs groq_log pdfs faiss_index metadata_pkl].
  by rewrite insert_insert_eq.
Qed.

(** C7. On a store written at ingestion, [get_stats] reports the
    counters of the sidecar record. [save_vectorstore] leaves in the
    store directory a [metadata.pkl] with the keys [num_chunks],
    [chunk_size] and [chunk_overlap]; a [Retriever] constructed on that
    directory loads the record, and its [get_stats] has under
    [total_chunks], [chunk_size] and [chunk_overlap] the values the
    record has under [num_chunks], [chunk_size] and [chunk_overlap]:
    the item count of the saved index and the two chunking parameters
    of the ingestion. *)
Theorem get_stats_reads_ingestion_sidecar
    (self : DocumentIngestor) (vectorstore : FAISS) (w : World)
    (embedding_model : string) (top_k : Z) :
  exists (w1 : World) (stored : Dir) (record : pydict),
    save_vectorstore self vectorstore w = (Ok tt, w1)
    /\ fs w1 !! vectorstore_dir self = Some stored
    /\ metadata_pkl stored = Some record
    /\ record !! "num_chunks" = Some (PyInt (ntotal (index vectorstore)))
    /\ record !! "chunk_size" = Some (PyInt (chunk_size self))
    /\ record !! "chunk_overlap" = Some (PyInt (chunk_overlap self))
    /\ exists (r : retrieval.Retriever) (w2 : World),
        retrieval.__init__ (vectorstore_dir self) embedding_model top_k w1 = (Ok r, w2)
        /\ retrieval.self_metadata r = record
        /\ retrieval.get_stats r !! "total_chunks" = record !! "num_chunks"
        /\ retrieval.get_stats r !! "chunk_size" = record !! "chunk_size"
        /\ retrieval.get_stats r !! "chunk_overlap" = record !! "chunk_overlap".
Proof.
  destruct (save_vectorstore_writes self vectorstore w) as (w1 & Hsave & Hfs & _).
  set (stored := mkDir (pdfs (default empty_dir (fs w !! vectorstore_dir self)))
                   (Some (index vectorstore))
                   (Some (sidecar_metadata self vectorstore))).
  assert (Hstored : fs w1 !! vectorstore_dir self = Some stored)
    by (rewrite Hfs; apply lookup_insert_eq).
  assert (Hnum : sidecar_metadata self vectorstore !! "num_chunks"
                 = Some (PyInt (ntotal (index vectorstore)))).
  { unfold sidecar_metadata. rewrite !lookup_insert_ne by done.
    by rewrite lookup_insert_eq. }
  assert (Hsize : sidecar_metadata self vectorstore !! "chunk_size"
                  = Some (PyInt (chunk_size self))).
  { unfold sidecar_metadata. rewrite !lookup_insert_ne by done.
    by rewrite lookup_insert_eq. }
  assert (Hoverlap : sidecar_metadata self vectorstore !! "chunk_overlap"
                     = Some (PyInt (chunk_overlap self))).
  { unfold sidecar_metadata. by rewrite lookup_insert_eq. }
  exists w1, stored, (sidecar_metadata self vectorstore).
  split; [exact Hsave |]. split; [exact Hstored |]. split; [reflexivity |].
  split; [exact Hnum |]. split; [exact Hsize |]. split; [exact Hoverlap |].
  destruct (retriever_loads_persisted_index (vectorstore_dir self) embedding_model top_k
              w1 stored (index vectorstore) Hstored)
    as (w2 & Hload & _); [reflexivity |].
  eexists _, w2. split; [exact Hload |]. cbn [retrieval.self_metadata default stored metadata_pkl].
  split; [reflexivity |].
  unfold retrieval.get_stats, dict_get.
  cbn [retrieval.self_metadata retrieval.vectorstore index].
  rewrite Hnum, Hsize, Hoverlap.
  split; [| split].
  - rewrite !lookup_insert_ne by done. by rewrite lookup_insert_eq.
  - rewrite !lookup_insert_ne by done. by rewrite lookup_insert_eq.
  - rewrite !lookup_insert_ne by done. by rewrite lookup_insert_eq.
Qed.
End IngestProperties.

(** ** The statements on concrete inputs *)

Section ConcreteRuns.
Import vectorstores retrieval chatbot_groq ingest.
#[local] Existing Instance Demo.runtime.
#[local] Existing Instance Demo.engine.

(** The scores of the small instance are ordered as the class asks. *)
Lemma demo_ordered_scores : OrderedScores (rt := Demo.runtime).
Proof.
  split.
  - intros x y. apply Nat.leb_le.
  - intros x y. simpl. lia.
  - intros x y Hxy. simpl in *. lia.
Defined.

(** What the two-page chatbot retrieves: the page on attention first,
    at distance 8, then the page without source, at distance 42. *)
Lemma two_pages_retrieved :
  retrieved (Demo.chatbot_on [Demo.paper_page; Demo.loose_page]) "what is attention?"
  = Ok [format_result Demo.paper_page 8%nat; format_result Demo.loose_page 42%nat].
Proof. reflexivity. Qed.

Lemma search_at_most_k_best_first_demo :
  let self := Demo.retriever_on [Demo.paper_page; Demo.loose_page; Demo.short_page]
                Demo.sidecar in
  let query := "what is attention?" in
  query <> "" /\ 1 <= 2
  /\ exists results : list SearchResult,
      search self query (Some 2) = Ok results
      /\ len results <= 2
      /\ Sorted float_le (map score results).
Proof.
  intros self query.
  assert (Hquery : query <> "") by discriminate.
  assert (Hk : 1 <= 2) by lia.
  split; [exact Hquery |]. split; [exact Hk |].
  destruct (search_at_most_k_best_first (ordered := demo_ordered_scores)
              self query 2 Hquery Hk)
    as (results & raw & Hrun & Hlen & Hbest & _).
  exists results. split; [exact Hrun |]. split; [exact Hlen | exact Hbest].
Defined.

Lemma search_source_defaults_to_unknown_demo :
  let self := Demo.retriever_on [Demo.paper_page; Demo.loose_page; Demo.short_page]
                Demo.sidecar in
  let r := format_result (rt := Demo.runtime) Demo.loose_page 42%nat in
  let results := [format_result Demo.paper_page 8%nat;
                  format_result Demo.short_page 10%nat; r] in
  search self "what is attention?" None = Ok results
  /\ metadata r !! "source" = None
  /\ source r = PyStr "Unknown".
Proof.
  intros self r results.
  assert (Hrun : search self "what is attention?" None = Ok results) by reflexivity.
  assert (Hnone : metadata r !! "source" = None) by reflexivity.
  split; [exact Hrun |]. split; [exact Hnone |].
  apply (search_source_defaults_to_unknown self "what is attention?" None results r Hrun).
  - apply list_elem_of_lookup. by exists 2%nat.
  - exact Hnone.
Defined.

Lemma retriever_needs_store_directory_demo :
  fs Demo.world !! "nowhere" = None
  /\ fst (retrieval.__init__ "nowhere" default_embedding_model 4 Demo.world)
     = Raise (FileNotFoundError
                ("Vector store not found at " +:+ "nowhere"
                 +:+ ". Please run ingest.py first.")).
Proof.
  assert (Hmissing : fs Demo.world !! "nowhere" = None) by reflexivity.
  split; [exact Hmissing |].
  destruct (retriever_needs_store_directory "nowhere" default_embedding_model 4
              Demo.world Hmissing) as ((w' & Hrun & _) & _).
  by rewrite Hrun.
Defined.

Lemma answer_short_circuits_without_results_demo :
  let self := Demo.chatbot_on [] in
  search (retriever self) "what is attention?" (Some (top_k self)) = Ok []
  /\ exists (r : Response) (w' : World),
      answer (groq := Demo.groq_up) self "what is attention?" true Demo.world = (Ok r, w')
      /\ resp_answer r = "I couldn't find any relevant information in the documents."
      /\ resp_sources r = []
      /\ groq_log w' = groq_log Demo.world.
Proof.
  intros self.
  assert (Hnone : search (retriever self) "what is attention?" (Some (top_k self)) = Ok [])
    by reflexivity.
  split; [exact Hnone |].
  exact (answer_short_circuits_without_results (groq := Demo.groq_up)
           self "what is attention?" true Demo.world Hnone).
Defined.

Lemma answer_survives_generation_failure_demo :
  let self := Demo.chatbot_on [Demo.paper_page; Demo.loose_page] in
  let results := [format_result Demo.paper_page 8%nat;
                  format_result Demo.loose_page 42%nat] in
  exists (r : Response) (w' : World),
    answer (groq := Demo.groq_down) self "what is attention?" true Demo.world = (Ok r, w')
    /\ resp_answer r = "Error generating answer: " +:+ "Connection error."
    /\ resp_answer r <> ""
    /\ resp_sources r = results
    /\ resp_metadata r !! "retrieved_chunks" = Some (PyInt 2).
Proof.
  intros self results.
  assert (Hsome : results <> []) by discriminate.
  assert (Hraise :
      chat_completions_create (GroqService := Demo.groq_down) (groq_log Demo.world)
        (query_request self "what is attention?" results)
      = Raise (mkException "APIConnectionError" "Connection error.")) by reflexivity.
  destruct (answer_survives_generation_failure (groq := Demo.groq_down)
              self "what is attention?" true Demo.world results _
              two_pages_retrieved Hsome Hraise)
    as (r & w' & Hrun & Htext & Hnonempty & Hsources & Hmetadata & _).
  exists r, w'. split; [exact Hrun |]. split; [exact Htext |].
  split; [exact Hnonempty |]. split; [exact Hsources |].
  rewrite Hmetadata. rewrite !lookup_insert_ne by done. by rewrite lookup_insert_eq.
Defined.

Lemma ingest_without_documents_writes_nothing_demo :
  fs Demo.world !! data_dir Demo.ingestor = Some (mkDir (Ok []) None None)
  /\ exists w' : World,
      ingest Demo.ingestor Demo.world = (Ok tt, w')
      /\ fs w' = fs Demo.world
      /\ fs w' !! ingest.vectorstore_dir Demo.ingestor
         = fs Demo.world !! ingest.vectorstore_dir Demo.ingestor
      /\ last (stdout w')
         = Some "⚠ No documents found. Please add PDF files to the data/ directory".
Proof.
  assert (Hdir : fs Demo.world !! data_dir Demo.ingestor = Some (mkDir (Ok []) None None))
    by reflexivity.
  split; [exact Hdir |].
  exact (ingest_without_documents_writes_nothing Demo.ingestor Demo.world
           (mkDir (Ok []) None None) Hdir eq_refl).
Defined.

(** C3 as stated fails: on a store whose index holds no chunk the
    retrieval returns the empty list, and the metadata of the answer
    has the key ['retrieved_chunks'] only. *)
Lemma answer_without_results_lacks_contract_keys :
  retrieved (Demo.chatbot_on []) "what is attention?" = Ok []
  /\ exists (r : Response) (w' : World),
      answer (groq := Demo.groq_up) (Demo.chatbot_on []) "what is attention?" true Demo.world
      = (Ok r, w')
      /\ resp_metadata r !! "model" = None
      /\ resp_metadata r !! "query" = None
      /\ ~ has_contract_keys (resp_metadata r).
Proof.
  assert (Hnone : retrieved (Demo.chatbot_on []) "what is attention?" = Ok [])
    by reflexivity.
  split; [exact Hnone |].
  eexists _, _. split.
  - by apply (answer_without_results (groq := Demo.groq_up)).
  - simpl. split; [reflexivity |]. split; [reflexivity |].
    intros (_ & [v Hmodel] & _). discriminate Hmodel.
Qed.

(** With [top_k = 0] the store refuses the search and [answer] raises
    its exception, before any request is sent. *)
Example answer_raises_without_positive_top_k :
  exists w' : World,
    answer (groq := Demo.groq_up) (Demo.chatbot_with_top_k 0) "what is attention?" true
      Demo.world
    = (Raise (AssertionError ""), w')
    /\ groq_log w' = groq_log Demo.world.
Proof.
  eexists. split.
  - apply (answer_retrieval_raises (groq := Demo.groq_up)). reflexivity.
  - reflexivity.
Qed.
End ConcreteRuns.
(** * Further properties of the pipeline *)

(** ** Ingestion: failures and the store it writes *)

Section IngestRuns.
Context {rt : PyRuntime} {engine : VectorEngine}.
Import vectorstores ingest.

(** What [load_documents] does on an existing directory. *)
Lemma load_documents_on_directory (self : DocumentIngestor) (w : World) (d : Dir) :
  fs w !! data_dir self = Some d ->
  exists w',
    load_documents self w = (pdfs d, w')
    /\ fs w' = fs w /\ groq_log w' = groq_log w
    /\ stdout w' =
       match pdfs d with
       | Ok documents =>
           (stdout w ++ ["Loading documents from " +:+ data_dir self +:+ "..."]
              ++ ["Loaded " +:+ pretty (len documents) +:+ " document pages"])%list
       | Raise _ =>
           (stdout w ++ ["Loading documents from " +:+ data_dir self +:+ "..."])%list
       end.
Proof.
  intros Hdir.
  unfold load_documents, path_exists, directory_loader_load, bind, print, ret.
  simpl. rewrite Hdir. rewrite bool_decide_eq_true_2 by eauto.
  simpl. rewrite Hdir.
  destruct (pdfs d) as [documents | e]; simpl; eexists;
    (split; [reflexivity |]); simpl; repeat split; by rewrite <- app_assoc.
Qed.

(** X1. When the data directory does not exist, [ingest] raises
    [FileNotFoundError] naming the directory, after reporting the error
    on the console, and the filesystem is untouched. *)
Theorem ingest_missing_data_directory (self : DocumentIngestor) (w : World) :
  fs w !! data_dir self = None ->
  exists w' : World,
    ingest self w
    = (Raise (FileNotFoundError ("Data directory not found: " +:+ data_dir self)), w')
    /\ fs w' = fs w
    /\ last (stdout w')
       = Some (nl +:+ "✗ Error during ingestion: "
               +:+ "Data directory not found: " +:+ data_dir self).
Proof.
  intros Hmissing.
  unfold ingest, try_except, load_documents, path_exists, bind, print, raise, ret.
  simpl. rewrite Hmissing.
  rewrite bool_decide_eq_false_2 by (intros [d Hd]; discriminate).
  simpl. eexists. split; [reflexivity |]. simpl. split; [done |].
  by rewrite last_snoc.
Qed.

(** X2. A PDF that fails to load is fatal: the loader's exception comes
    out of [ingest] unchanged, and no store is written. *)
Theorem ingest_loader_failure_is_fatal
    (self : DocumentIngestor) (w : World) (d : Dir) (e : Exception) :
  fs w !! data_dir self = Some d ->
  pdfs d = Raise e ->
  exists w' : World,
    ingest self w = (Raise e, w')
    /\ fs w' = fs w
    /\ last (stdout w') = Some (nl +:+ "✗ Error during ingestion: " +:+ str e).
Proof.
  intros Hdir Hpdfs.
  unfold ingest, try_except, bind, raise.
  set (w0 := snd (print (str_repeat "=" 50) w)).
  destruct (load_documents_on_directory self
              (snd (print (str_repeat "=" 50)
                      (snd (print "Starting Document Ingestion Pipeline" w0)))) d)
    as (w1 & Hload & Hfs & _); [exact Hdir |].
  simpl in *. rewrite Hload, Hpdfs. simpl.
  eexists. split; [reflexivity |]. simpl. split; [done |].
  by rewrite last_snoc.
Qed.
(** The run of [ingest] when pages are loaded and the index is built. *)
Lemma ingest_with_documents
    (self : DocumentIngestor) (w : World) (d : Dir)
    (documents : list Document) (idx : Index) :
  fs w !! data_dir self = Some d ->
  pdfs d = Ok documents ->
  documents <> [] ->
  build_index (embeddings self) (split_documents (text_splitter self) documents) = Ok idx ->
  exists w' : World,
    ingest self w = (Ok tt, w')
    /\ fs w'
       = <[vectorstore_dir self :=
             mkDir (pdfs (default empty_dir (fs w !! vectorstore_dir self)))
               (Some idx)
               (Some (sidecar_metadata self (mkFAISS idx (embeddings self))))]>
         (fold_left ensure_dir
            (path_parents (vectorstore_dir self) ++ [vectorstore_dir self])%list (fs w))
    /\ groq_log w' = groq_log w
    /\ last (stdout w') = Some (str_repeat "=" 50).
Proof.
  intros Hdir Hpdfs Hsome Hbuild.
  unfold ingest, try_except, bind.
  set (w0 := snd (print (str_repeat "=" 50) w)).
  destruct (load_documents_on_directory self
              (snd (print (str_repeat "=" 50)
                      (snd (print "Starting Document Ingestion Pipeline" w0)))) d)
    as (w1 & Hload & Hfs1 & Hlog1 & _); [exact Hdir |].
  simpl in Hload, Hfs1, Hlog1. simpl. rewrite Hload, Hpdfs.
  destruct documents as [|page pages]; [done |].
  unfold len at 1. simpl length.
  replace (Z.of_nat (S (length pages)) =? 0) with false
    by (symmetry; apply Z.eqb_neq; lia).
  unfold chunk_documents, create_vectorstore, from_documents, lift_result, bind, print, ret.
  simpl. rewrite Hbuild. simpl.
  match goal with
  | |- context [save_vectorstore self ?vs ?w2] =>
      destruct (save_vectorstore_writes self vs w2) as (w3 & Hsave & Hfs3 & Hlog3)
  end.
  rewrite Hsave. simpl in Hfs3, Hlog3. rewrite Hfs1 in Hfs3.
  eexists. split; [reflexivity |]. simpl.
  split; [exact Hfs3 |]. split; [congruence |]. by rewrite last_snoc.
Qed.

(** X3. With at least one page loaded and an index built from the chunks,
    [ingest] returns normally and the vector store directory then holds
    that index and a sidecar record with the number of indexed items
    and the two chunking parameters. Whatever the directory held as
    index or sidecar before is replaced. Of the other paths, a
    directory that existed is untouched, a missing ancestor of the
    vector store directory is created empty, and nothing else comes
    into being. *)
Theorem ingest_writes_index_and_sidecar
    (self : DocumentIngestor) (w : World) (d : Dir)
    (documents : list Document) (idx : Index) :
  fs w !! data_dir self = Some d ->
  pdfs d = Ok documents ->
  documents <> [] ->
  build_index (embeddings self) (split_documents (text_splitter self) documents) = Ok idx ->
  exists (w' : World) (stored : Dir),
    ingest self w = (Ok tt, w')
    /\ fs w' !! vectorstore_dir self = Some stored
    /\ faiss_index stored = Some idx
    /\ (exists md : pydict,
          metadata_pkl stored = Some md
          /\ md !! "num_chunks" = Some (PyInt (ntotal idx))
          /\ md !! "chunk_size" = Some (PyInt (chunk_size self))
          /\ md !! "chunk_overlap" = Some (PyInt (chunk_overlap self)))
    /\ (forall path : string,
          path <> vectorstore_dir self ->
          fs w' !! path
          = match fs w !! path with
            | Some dir => Some dir
            | None =>
                if bool_decide (path ∈ path_parents (vectorstore_dir self))
                then Some empty_dir else None
            end).
Proof.
  intros Hdir Hpdfs Hsome Hbuild.
  destruct (ingest_with_documents self w d documents idx Hdir Hpdfs Hsome Hbuild)
    as (w' & Hrun & Hfs & _).
  eexists w', _. split; [exact Hrun |]. rewrite Hfs.
  split; [apply lookup_insert_eq |]. simpl.
  split; [reflexivity |]. split.
  - eexists. split; [reflexivity |]. unfold sidecar_metadata. simpl.
    split; [|split].
    + rewrite !lookup_insert_ne by done. by rewrite lookup_insert_eq.
    + rewrite !lookup_insert_ne by done. by rewrite lookup_insert_eq.
    + by rewrite lookup_insert_eq.
  - intros path Hother. rewrite lookup_insert_ne by done.
    rewrite lookup_ensure_dirs. destruct (fs w !! path); [done |].
    by rewrite (bool_decide_ext
                  (path ∈ (path_parents (vectorstore_dir self) ++ [vectorstore_dir self])%list)
                  (path ∈ path_parents (vectorstore_dir self)))
      by (rewrite elem_of_app, elem_of_cons, elem_of_nil; intuition congruence).
Qed.

(** X5. Round trip: after a successful [ingest], constructing a
    [Retriever] on the vector store directory succeeds; its index is
    the one built at ingestion, [get_stats] reports that index's count
    and the chunking parameters of the ingestion, and [search] ranks
    with that index and the embedding model given to the [Retriever]. *)
Theorem ingested_store_loads
    (self : DocumentIngestor) (w : World) (d : Dir)
    (documents : list Document) (idx : Index)
    (embedding_model : string) (top_k : Z) :
  fs w !! data_dir self = Some d ->
  pdfs d = Ok documents ->
  documents <> [] ->
  build_index (embeddings self) (split_documents (text_splitter self) documents) = Ok idx ->
  exists (w1 : World) (r : retrieval.Retriever) (w2 : World),
    ingest self w = (Ok tt, w1)
    /\ retrieval.__init__ (vectorstore_dir self) embedding_model top_k w1 = (Ok r, w2)
    /\ index (retrieval.vectorstore r) = idx
    /\ retrieval.get_stats r !! "total_chunks" = Some (PyInt (ntotal idx))
    /\ retrieval.get_stats r !! "chunk_size" = Some (PyInt (chunk_size self))
    /\ retrieval.get_stats r !! "chunk_overlap" = Some (PyInt (chunk_overlap self))
    /\ (forall (query : string) (k : Z),
          retrieval.search r query (Some k)
          = match knn (mkEmbeddings embedding_model "cpu") idx query k with
            | Ok raw => Ok (map (fun '(doc, score) => retrieval.format_result doc score) raw)
            | Raise e => Raise e
            end).
Proof.
  intros Hdir Hpdfs Hsome Hbuild.
  destruct (ingest_with_documents self w d documents idx Hdir Hpdfs Hsome Hbuild)
    as (w1 & Hrun & Hfs & _).
  destruct (retriever_loads_persisted_index (vectorstore_dir self) embedding_model top_k w1
              (mkDir (pdfs (default empty_dir (fs w !! vectorstore_dir self)))
                 (Some idx)
                 (Some (sidecar_metadata self (mkFAISS idx (embeddings self)))))
              idx)
    as (w2 & Hload & _).
  { rewrite Hfs. apply lookup_insert_eq. }
  { reflexivity. }
  eexists w1, _, w2. split; [exact Hrun |]. split; [exact Hload |]. simpl.
  split; [reflexivity |].
  unfold retrieval.get_stats, sidecar_metadata, dict_get. simpl.
  split; [| split; [| split]].
  - rewrite !lookup_insert_ne by done. by rewrite lookup_insert_eq.
  - rewrite !lookup_insert_ne by done. rewrite lookup_insert_eq.
    rewrite !lookup_insert_ne by done. by rewrite lookup_insert_eq.
  - rewrite !lookup_insert_ne by done. rewrite lookup_insert_eq.
    by rewrite lookup_insert_eq.
  - intros query k. by rewrite search_formats_store_results.
Qed.

(** X4. When building the index fails, the exception comes out of [ingest]
    and the filesystem is as it was: no directory is created and no
    store is written. *)
Theorem ingest_index_failure_writes_nothing
    (self : DocumentIngestor) (w : World) (d : Dir)
    (documents : list Document) (e : Exception) :
  fs w !! data_dir self = Some d ->
  pdfs d = Ok documents ->
  documents <> [] ->
  build_index (embeddings self) (split_documents (text_splitter self) documents) = Raise e ->
  exists w' : World,
    ingest self w = (Raise e, w')
    /\ fs w' = fs w
    /\ last (stdout w') = Some (nl +:+ "✗ Error during ingestion: " +:+ str e).
Proof.
  intros Hdir Hpdfs Hsome Hbuild.
  unfold ingest, try_except, bind.
  set (w0 := snd (print (str_repeat "=" 50) w)).
  destruct (load_documents_on_directory self
              (snd (print (str_repeat "=" 50)
                      (snd (print "Starting Document Ingestion Pipeline" w0)))) d)
    as (w1 & Hload & Hfs1 & _); [exact Hdir |].
  simpl in Hload, Hfs1. simpl. rewrite Hload, Hpdfs.
  destruct documents as [|page pages]; [done |].
  unfold len at 1. simpl length.
  replace (Z.of_nat (S (length pages)) =? 0) with false
    by (symmetry; apply Z.eqb_neq; lia).
  unfold chunk_documents, create_vectorstore, from_documents, lift_result, bind, print,
    raise, ret.
  simpl. rewrite Hbuild. simpl.
  eexists. split; [reflexivity |]. simpl. split; [exact Hfs1 |].
  by rewrite last_snoc.
Qed.
End IngestRuns.

(** ** Numbered contexts *)

Lemma map_enumerate {A B : Type} (f : Z * A -> B) (start : Z) (l : list A) :
  map f (enumerate start l) = imap (fun i x => f (start + Z.of_nat i, x)) l.
Proof.
  revert start. induction l as [|x l IH]; intros start; simpl; [done |].
  f_equal.
  - f_equal. f_equal. lia.
  - rewrite IH. apply imap_ext. intros i y _. simpl. do 2 f_equal. lia.
Qed.

Section ContextProperties.
Context {rt : PyRuntime} {engine : VectorEngine}.
Import vectorstores retrieval.

(** X6. [get_context] raises what [search] raises; otherwise it joins,
    with a blank line between them, one part per result of [search] in
    rank order, the part at position [i] (from 0) being the chunk's
    content under the heading [[Document i+1]]. *)
Theorem get_context_numbers_results (self : Retriever) (query : string) (k : option Z) :
  get_context self query k
  = match search self query k with
    | Ok results =>
        Ok (str_join (nl +:+ nl)
              (imap (fun i r =>
                       "[Document " +:+ pretty (Z.of_nat i + 1) +:+ "]" +:+ nl +:+ content r)
                 results))
    | Raise e => Raise e
    end.
Proof.
  unfold get_context. destruct (search self query k) as [results | e]; [| done].
  rewrite fold_left_append_map. simpl.
  rewrite (map_enumerate
             (fun p => let '(i, result) := p in
                       "[Document " +:+ pretty i +:+ "]" +:+ nl +:+ content result)).
  do 2 f_equal. apply imap_ext. intros i r _. simpl. do 3 f_equal. lia.
Qed.
End ContextProperties.

(** ** [answer]: the generation call and the text it settles on *)

Section AnswerRuns.
Context {rt : PyRuntime} {engine : VectorEngine}.
Import retrieval chatbot_groq.

(** X7. [answer] never touches the filesystem and sends at most one
    request to the generation service. When the retrieval raises,
    [answer] raises the same exception and sends none; without
    retrieved chunks it returns and sends none; with some it returns
    and sends exactly one. That request names the chatbot's model and
    temperature, asks for at most 512 tokens, and holds a single user
    message: the prompt for the query, in which the chunk at position
    [i] (from 0) of the retrieval is introduced by [[Source i+1]: ]. *)
Theorem answer_sends_at_most_one_request {groq : GroqService}
    (self : RAGChatbot) (query : string) (return_sources : bool) (w : World) :
  exists (outcome : result Response) (w' : World),
    answer self query return_sources w = (outcome, w')
    /\ fs w' = fs w
    /\ match search (retriever self) query (Some (top_k self)) with
       | Raise e => outcome = Raise e /\ groq_log w' = groq_log w
       | Ok [] => (exists r : Response, outcome = Ok r) /\ groq_log w' = groq_log w
       | Ok results =>
           (exists r : Response, outcome = Ok r)
           /\ groq_log w'
              = (groq_log w
                 ++ [ {| req_model := model self;
                         req_messages :=
                           [mkChatMessage "user"
                              (_create_prompt query
                                 (str_join (nl +:+ nl)
                                    (imap (fun i r =>
                                             "[Source " +:+ pretty (Z.of_nat i + 1) +:+ "]: "
                                             +:+ content r)
                                       results)))];
                         req_temperature := temperature self;
                         req_max_tokens := 512 |} ])%list
       end.
Proof.
  destruct (search (retriever self) query (Some (top_k self)))
    as [[|r0 rest] | e] eqn:Hres.
  - eexists _, _. split; [by apply answer_without_results |].
    split; [done |]. split; [by eexists | done].
  - destruct (answer_with_results self query return_sources w (r0 :: rest) Hres)
      as (w' & Hrun & Hfs & Hlog & _); [done |].
    eexists _, w'. split; [exact Hrun |]. split; [exact Hfs |].
    split; [by eexists |].
    rewrite Hlog. do 2 f_equal.
    unfold query_request, chat_request, build_context.
    do 4 f_equal.
    rewrite (map_enumerate
               (fun p => let '(i, r) := p in
                         "[Source " +:+ pretty (i + 1) +:+ "]: " +:+ content r)).
    reflexivity.
  - eexists _, _. split; [by apply answer_retrieval_raises |]. by split.
Qed.

(** X8. When chunks are retrieved and the service returns a completion
    whose first choice has a text, the answer is that text stripped,
    whatever further choices the completion holds. *)
Theorem answer_returns_stripped_first_choice {groq : GroqService}
    (self : RAGChatbot) (query : string) (return_sources : bool) (w : World)
    (results : list SearchResult) (text : string) (others : list Choice) :
  search (retriever self) query (Some (top_k self)) = Ok results ->
  results <> [] ->
  chat_completions_create (groq_log w) (query_request self query results)
  = Ok (mkChatCompletion (mkChoice (Some text) :: others)) ->
  exists (r : Response) (w' : World),
    answer self query return_sources w = (Ok r, w')
    /\ resp_answer r = str_strip text
    /\ last (stdout w') = Some ("Generating answer with " +:+ model self +:+ "...").
Proof.
  intros Hres Hsome Hcreate.
  unfold query_request in Hcreate.
  unfold answer, bind, print, ret, try_except, groq_create, lift_result. simpl.
  rewrite Hres. destruct results as [|r0 rest]; [done |].
  simpl. rewrite Hcreate. simpl.
  eexists _, _. split; [reflexivity |]. simpl. split; [done |].
  by rewrite last_snoc.
Qed.

(** X9. A completion without choices, or whose first choice has no text,
    does not make [answer] raise either: the answer field holds the
    error text of the failed access, the sources and metadata are
    those of a normal answer, and the error is reported on the
    console. *)
Theorem answer_survives_malformed_completion {groq : GroqService}
    (self : RAGChatbot) (query : string) (return_sources : bool) (w : World)
    (results : list SearchResult) (response : ChatCompletion) :
  search (retriever self) query (Some (top_k self)) = Ok results ->
  results <> [] ->
  chat_completions_create (groq_log w) (query_request self query results) = Ok response ->
  head (choices response) = None \/ (message_content <$> head (choices response)) = Some None ->
  exists (r : Response) (w' : World) (detail : string),
    answer self query return_sources w = (Ok r, w')
    /\ resp_answer r = "Error generating answer: " +:+ detail
    /\ (detail = "list index out of range"
        \/ detail = "'NoneType' object has no attribute 'strip'")
    /\ resp_sources r = (if return_sources then results else [])
    /\ resp_metadata r = full_metadata self query results
    /\ last (stdout w') = Some ("✗ Generation error: " +:+ detail).
Proof.
  intros Hres Hsome Hcreate Hbad.
  unfold query_request in Hcreate.
  unfold full_metadata.
  unfold answer, bind, print, ret, try_except, groq_create, lift_result. simpl.
  rewrite Hres. destruct results as [|r0 rest]; [done |].
  simpl. rewrite Hcreate. simpl.
  unfold first_choice_text, raise, ret.
  destruct (choices response) as [|choice others]; simpl in *.
  - eexists _, _, _. split; [reflexivity |]. simpl.
    split; [reflexivity |]. split; [by left |]. split; [done |]. split; [done |].
    by rewrite last_snoc.
  - destruct Hbad as [Hbad | Hbad]; [discriminate |].
    destruct (message_content choice) as [text |]; [discriminate |]. simpl.
    eexists _, _, _. split; [reflexivity |]. simpl.
    split; [reflexivity |]. split; [by right |]. split; [done |]. split; [done |].
    by rewrite last_snoc.
Qed.
End AnswerRuns.

(** ** Constructing the chatbot *)

Section ChatbotConstruction.
Context {rt : PyRuntime} {engine : VectorEngine}.
Import vectorstores retrieval chatbot_groq.

(** The run of [Retriever.__init__] on an absent directory. *)
Lemma retriever_init_without_directory
    (vectorstore_dir embedding_model : string) (top_k : Z) (w : World) :
  fs w !! vectorstore_dir = None ->
  exists w' : World,
    retrieval.__init__ vectorstore_dir embedding_model top_k w
    = (Raise (FileNotFoundError
                ("Vector store not found at " +:+ vectorstore_dir
                 +:+ ". Please run ingest.py first.")), w')
    /\ fs w' = fs w
    /\ groq_log w' = groq_log w
    /\ stdout w' = (stdout w ++ ["Loading embedding model: " +:+ embedding_model])%list.
Proof.
  intros Hmissing.
  unfold retrieval.__init__, _load_vectorstore, bind, print, path_exists, raise.
  simpl. rewrite Hmissing.
  rewrite bool_decide_eq_false_2 by (intros [d Hd]; discriminate).
  simpl. eexists. split; [reflexivity |]. by repeat split.
Qed.

(** The run of [Retriever.__init__] on a directory that holds an index. *)
Lemma retriever_init_on_index
    (vectorstore_dir embedding_model : string) (top_k : Z) (w : World)
    (d : Dir) (idx : Index) :
  fs w !! vectorstore_dir = Some d ->
  faiss_index d = Some idx ->
  retrieval.__init__ vectorstore_dir embedding_model top_k w
  = (Ok (mkRetriever vectorstore_dir top_k (mkEmbeddings embedding_model "cpu")
           (mkFAISS idx (mkEmbeddings embedding_model "cpu"))
           (default ∅ (metadata_pkl d))),
     mkWorld (fs w)
       (stdout w ++ ["Loading embedding model: " +:+ embedding_model]
          ++ ["Loading vector store from " +:+ vectorstore_dir +:+ "..."]
          ++ ["✓ Vector store loaded with " +:+ pretty (ntotal idx) +:+ " chunks"])%list
       (groq_log w)).
Proof.
  intros Hdir Hidx.
  unfold retrieval.__init__, _load_vectorstore, _load_metadata, load_local, path_exists,
    bind, print, ret.
  simpl. rewrite Hdir. rewrite bool_decide_eq_true_2 by eauto.
  simpl. rewrite Hdir, Hidx. simpl. rewrite Hdir.
  rewrite <- !app_assoc.
  by destruct (metadata_pkl d).
Qed.

(** X10. With a key but no vector store directory, the constructor raises
    the retriever's [FileNotFoundError] and yields no chatbot. *)
Theorem chatbot_requires_store_directory
    (vectorstore_dir key model : string) (top_k : Z) (temperature : float) (w : World) :
  key <> "" ->
  fs w !! vectorstore_dir = None ->
  exists w' : World,
    chatbot_groq.__init__ vectorstore_dir (Some key) model top_k temperature w
    = (Raise (FileNotFoundError
                ("Vector store not found at " +:+ vectorstore_dir
                 +:+ ". Please run ingest.py first.")), w')
    /\ fs w' = fs w
    /\ groq_log w' = groq_log w.
Proof.
  intros Hkey Hmissing.
  destruct key as [|c key]; [done |].
  unfold chatbot_groq.__init__, bind, print.
  simpl.
  match goal with
  | |- context [retrieval.__init__ _ _ _ ?w1] =>
      destruct (retriever_init_without_directory vectorstore_dir
                  default_embedding_model top_k w1 Hmissing)
        as (w' & Hrun & Hfs & Hlog & _)
  end.
  rewrite Hrun. eexists. split; [reflexivity |]. by split.
Qed.
(** X11. With a key and a directory that holds an index, the constructor
    returns a chatbot over that index without touching the filesystem
    or calling the generation service. Its retriever is configured
    with the chatbot's own [top_k], so what [answer] retrieves for a
    query is the retriever's default search. *)
Theorem chatbot_ready_on_persisted_store
    (vectorstore_dir key model : string) (top_k : Z) (temperature : float) (w : World)
    (d : Dir) (idx : Index) :
  key <> "" ->
  fs w !! vectorstore_dir = Some d ->
  faiss_index d = Some idx ->
  exists (bot : RAGChatbot) (w' : World),
    chatbot_groq.__init__ vectorstore_dir (Some key) model top_k temperature w = (Ok bot, w')
    /\ chatbot_groq.model bot = model
    /\ chatbot_groq.top_k bot = top_k
    /\ index (vectorstore (retriever bot)) = idx
    /\ fs w' = fs w
    /\ groq_log w' = groq_log w
    /\ last (stdout w') = Some ("✓ RAG Chatbot ready with " +:+ model)
    /\ (forall query : string,
          search (retriever bot) query (Some (chatbot_groq.top_k bot))
          = search (retriever bot) query None).
Proof.
  intros Hkey Hdir Hidx.
  destruct key as [|c key]; [done |].
  unfold chatbot_groq.__init__, bind, print, ret. simpl.
  rewrite (retriever_init_on_index vectorstore_dir default_embedding_model top_k _ d idx)
    by done.
  simpl. eexists _, _. split; [reflexivity |]. simpl.
  repeat (split; [done |]).
  split; [by rewrite last_snoc | done].
Qed.
End ChatbotConstruction.

Section RagCoreConstruction.
Context {rt : PyRuntime} {engine : VectorEngine}.
Import retrieval chatbot_groq.

(** X12. The key [rag_core.RAGChatbot] ends up with: the argument if it is
    a non-empty string, else the environment's [GROQ_API_KEY] if that
    is one. *)
Theorem rag_core_resolves_api_key
    (environ : gmap string string) (vectorstore_dir : string) (groq_api_key : option string)
    (key model : string) (top_k : Z) (temperature : float) (w : World) :
  key <> "" ->
  groq_api_key = Some key
  \/ ((groq_api_key = None \/ groq_api_key = Some "") /\ environ !! "GROQ_API_KEY" = Some key) ->
  rag_core.__init__ environ vectorstore_dir groq_api_key model top_k temperature w
  = chatbot_groq.__init__ vectorstore_dir (Some key) model top_k temperature w.
Proof.
  intros Hkey Hfrom.
  destruct key as [|c key]; [done |].
  unfold rag_core.__init__, rag_core.getenv.
  destruct Hfrom as [-> | [[-> | ->] ->]]; reflexivity.
Qed.

End RagCoreConstruction.

(** ** The HTTP handler *)

Section HandlerProperties.
Context {rt : PyRuntime} {engine : VectorEngine} {groq : GroqService}
        {hrt : HandlerRuntime}.
Import retrieval chatbot_groq api_query.

(** The first [try] block never raises and leaves the world alone. *)
Lemma parse_request_outcome (request : HttpRequest) (w : World) :
  parse_request request w
  = (Ok match json_loads (body request) with
        | Raise e =>
            inr (mkHttpResponse 400 cors_headers
                   (json_dumps_error ("Invalid request body: " +:+ str e)))
        | Ok (JDict d) =>
            if truthy (entries_get d "question") then inl (entries_get d "question")
            else inr (mkHttpResponse 400 cors_headers
                        (json_dumps_error
                           ("Invalid request body: "
                            +:+ "Missing 'question' in request body.")))
        | Ok other =>
            inr (mkHttpResponse 400 cors_headers
                   (json_dumps_error
                      ("Invalid request body: " +:+ "'" +:+ type_name other
                       +:+ "' object has no attribute 'get'")))
        end, w).
Proof.
  unfold parse_request, try_except, bind, lift_result, get_question, raise, ret.
  destruct (json_loads (body request)) as [parsed | e]; [| reflexivity].
  destruct parsed; try reflexivity.
  simpl. by destruct (truthy (entries_get d "question")).
Qed.

(** X13. Requests that are not [POST] are settled by the method alone: 200
    with an empty body for the [OPTIONS] preflight, 405 for any other
    method. The body is not read, nothing is printed, retrieved or
    generated, and it makes no difference whether the chatbot was
    initialised. *)
Theorem handler_settles_other_methods
    (RAG_BOT : option RAGChatbot) (request : HttpRequest) (w : World) :
  method request <> "POST" ->
  handler RAG_BOT request w
  = (Ok (if bool_decide (method request = "OPTIONS")
         then mkHttpResponse 200 cors_headers ""
         else mkHttpResponse 405 cors_headers (json_dumps_error "Method Not Allowed")),
     w).
Proof.
  intros Hpost. unfold handler.
  apply String.eqb_neq in Hpost. rewrite Hpost. simpl.
  case_bool_decide as Hoptions.
  - by rewrite Hoptions.
  - apply String.eqb_neq in Hoptions. by rewrite Hoptions.
Qed.

(** X14. A [POST] whose body does not parse to an object with a truthy
    ['question'] (a parse error, a JSON value that is not an object, a
    missing, null, empty, zero or false question) is answered 400 with
    an error body; the world is unchanged, so neither retrieval output
    nor a generation call results from it. *)
Theorem handler_rejects_bad_body
    (RAG_BOT : option RAGChatbot) (request : HttpRequest) (w : World) :
  method request = "POST" ->
  (forall d, json_loads (body request) = Ok (JDict d) ->
             truthy (entries_get d "question") = false) ->
  exists detail : string,
    handler RAG_BOT request w
    = (Ok (mkHttpResponse 400 cors_headers
             (json_dumps_error ("Invalid request body: " +:+ detail))), w).
Proof.
  intros Hmethod Hbad. unfold handler, bind. rewrite Hmethod. simpl.
  rewrite parse_request_outcome.
  destruct (json_loads (body request)) as [parsed | e]; [| by eexists].
  destruct parsed; try by eexists.
  rewrite (Hbad d eq_refl). by eexists.
Qed.

(** X15. When the chatbot failed to initialise, a well-formed [POST] is
    answered 500 with the reason; the generation service is not
    called. *)
Theorem handler_without_chatbot
    (request : HttpRequest) (w : World) (d : list (string * json)) :
  method request = "POST" ->
  json_loads (body request) = Ok (JDict d) ->
  truthy (entries_get d "question") = true ->
  exists w' : World,
    handler None request w
    = (Ok (mkHttpResponse 500 cors_headers
             (json_dumps_error ("Internal Server Error: " +:+ "RAG Chatbot not initialized."))),
       w')
    /\ fs w' = fs w
    /\ groq_log w' = groq_log w.
Proof.
  intros Hmethod Hbody Hquestion. unfold handler, bind. rewrite Hmethod. simpl.
  rewrite parse_request_outcome, Hbody, Hquestion.
  unfold try_except, raise, bind, print, ret. simpl.
  eexists. split; [reflexivity |]. by split.
Qed.

(** X16. A [POST] with a string question is answered 200 with the
    serialised result of [answer(question, return_sources=True)], in
    the world [answer] leaves. *)
Theorem handler_answers_question
    (bot : RAGChatbot) (request : HttpRequest) (w w' : World)
    (d : list (string * json)) (question payload : string) (r : Response) :
  method request = "POST" ->
  json_loads (body request) = Ok (JDict d) ->
  entries_get d "question" = JStr question ->
  question <> "" ->
  answer bot question true w = (Ok r, w') ->
  json_dumps_response r = Ok payload ->
  handler (Some bot) request w = (Ok (mkHttpResponse 200 cors_headers payload), w').
Proof.
  intros Hmethod Hbody Hquestion Hnonempty Hanswer Hdump.
  unfold handler, bind. rewrite Hmethod. simpl.
  rewrite parse_request_outcome, Hbody, Hquestion. simpl.
  apply String.eqb_neq in Hnonempty. rewrite Hnonempty. simpl.
  unfold try_except, bind, run_answer, lift_result, ret.
  by rewrite Hanswer, Hdump.
Qed.

(** X17. Fail-soft at the HTTP boundary: when chunks are retrieved and the
    generation call raises, the response is still 200 and its body is
    the serialised answer whose text is the error message, with the
    retrieved chunks as sources. *)
Theorem handler_answers_200_on_generation_failure
    (bot : RAGChatbot) (request : HttpRequest) (w : World)
    (d : list (string * json)) (question payload : string)
    (results : list SearchResult) (e : Exception) :
  method request = "POST" ->
  json_loads (body request) = Ok (JDict d) ->
  entries_get d "question" = JStr question ->
  question <> "" ->
  search (retriever bot) question (Some (top_k bot)) = Ok results ->
  results <> [] ->
  chat_completions_create (groq_log w) (query_request bot question results) = Raise e ->
  json_dumps_response
    {| resp_answer := "Error generating answer: " +:+ str e;
       resp_sources := results;
       resp_metadata := full_metadata bot question results |} = Ok payload ->
  exists w' : World,
    handler (Some bot) request w = (Ok (mkHttpResponse 200 cors_headers payload), w')
    /\ last (stdout w') = Some ("✗ Generation error: " +:+ str e).
Proof.
  intros Hmethod Hbody Hquestion Hnonempty Hres Hsome Hraise Hdump.
  unfold handler, bind. rewrite Hmethod. simpl.
  rewrite parse_request_outcome, Hbody, Hquestion. simpl.
  apply String.eqb_neq in Hnonempty. rewrite Hnonempty. simpl.
  unfold query_request in Hraise. unfold full_metadata in Hdump.
  unfold try_except, bind, run_answer, lift_result, ret.
  unfold answer, bind, print, ret, try_except, groq_create, lift_result. simpl.
  rewrite Hres. destruct results as [|r0 rest]; [done |].
  simpl. rewrite Hraise. simpl. rewrite Hdump.
  eexists. split; [reflexivity |]. simpl. by rewrite last_snoc.
Qed.

(** X18. [handler] never raises: every request gets a response, its status
    is 200, 400, 405 or 500, and it carries the CORS headers. *)
Theorem handler_always_responds
    (RAG_BOT : option RAGChatbot) (request : HttpRequest) (w : World) :
  exists (response : HttpResponse) (w' : World),
    handler RAG_BOT request w = (Ok response, w')
    /\ statusCode response ∈ [200; 400; 405; 500]
    /\ headers response = cors_headers.
Proof.
  unfold handler, bind.
  destruct (String.eqb (method request) "OPTIONS").
  { eexists _, _. split; [reflexivity |]. simpl. split; [set_solver | done]. }
  destruct (String.eqb (method request) "POST"); simpl.
  2: { eexists _, _. split; [reflexivity |]. simpl. split; [set_solver | done]. }
  rewrite parse_request_outcome.
  set (parsed := match json_loads (body request) with Ok _ => _ | Raise _ => _ end).
  assert (Hparsed : (exists q, parsed = inl q)
                    \/ (exists b, parsed = inr (mkHttpResponse 400 cors_headers b))).
  { subst parsed. destruct (json_loads (body request)) as [v | e]; [| right; by eexists].
    destruct v; try (right; by eexists).
    destruct (truthy (entries_get d "question")); [left | right]; by eexists. }
  destruct Hparsed as [[q ->] | [b ->]].
  2: { eexists _, _. split; [reflexivity |]. simpl. split; [set_solver | done]. }
  unfold try_except, bind, raise, print, ret, lift_result.
  destruct RAG_BOT as [bot |].
  2: { eexists _, _. split; [reflexivity |]. simpl. split; [set_solver | done]. }
  destruct (run_answer bot q w) as [[r | e] w1].
  2: { eexists _, _. split; [reflexivity |]. simpl. split; [set_solver | done]. }
  destruct (json_dumps_response r) as [payload | e];
    eexists _, _; (split; [reflexivity |]); simpl; (split; [set_solver | done]).
Qed.

(** X20. With a key in the environment and an index in the [vectorstore]
    directory, [RAG_BOT] is a chatbot for the model
    [llama-3.2-3b-preview] retrieving 4 chunks, built without calling
    the generation service. *)
Theorem init_rag_bot_ready
    (environ : gmap string string) (w : World) (key : string) (d : Dir) (idx : Index) :
  environ !! "GROQ_API_KEY" = Some key ->
  key <> "" ->
  fs w !! "vectorstore" = Some d ->
  faiss_index d = Some idx ->
  exists (bot : RAGChatbot) (w' : World),
    init_rag_bot environ w = (Ok (Some bot), w')
    /\ model bot = "llama-3.2-3b-preview"
    /\ top_k bot = 4
    /\ retrieval.top_k (retriever bot) = 4
    /\ vectorstores.index (vectorstore (retriever bot)) = idx
    /\ fs w' = fs w
    /\ groq_log w' = groq_log w.
Proof.
  intros Henv Hkey Hdir Hidx.
  destruct key as [|c key]; [done |].
  unfold init_rag_bot, try_except, bind, ret. rewrite Henv.
  unfold rag_core.__init__, rag_core.init_with_key, bind, print, ret. simpl.
  rewrite (retriever_init_on_index "vectorstore" default_embedding_model 4 _ d idx)
    by done.
  simpl. eexists _, _. split; [reflexivity |]. simpl. by repeat split.
Qed.
End HandlerProperties.

(** ** The interactive loop *)

Section ChatProperties.
Context {rt : PyRuntime} {engine : VectorEngine} {groq : GroqService}
        {crt : ChatRuntime}.
Import retrieval chatbot_groq chat_loop.

(** A loop that prints one line per pair. *)
Lemma for_each_print {A B : Type} (render : A -> B -> string) (l : list (A * B)) (w : World) :
  for_each l (fun '(a, b) => print (render a b)) w
  = (Ok tt, mkWorld (fs w) (stdout w ++ map (fun '(a, b) => render a b) l)%list (groq_log w)).
Proof.
  revert w. induction l as [|[a b] l IH]; intros w; simpl.
  - rewrite app_nil_r. by destruct w.
  - unfold bind, print at 1. simpl. rewrite IH. simpl. by rewrite <- app_assoc.
Qed.

Lemma print_sources_outcome (sources : list SearchResult) (w : World) :
  exists w' : World,
    print_sources sources w = (Ok tt, w')
    /\ fs w' = fs w /\ groq_log w' = groq_log w
    /\ stdout w'
       = (stdout w
          ++ match sources with
             | [] => []
             | _ :: _ =>
                 ["📚 Sources (" +:+ pretty (len sources) +:+ " documents):"]
                 ++ imap (fun i source =>
                            "  [" +:+ pretty (Z.of_nat i + 1) +:+ "] "
                            +:+ py_str (retrieval.source source)
                            +:+ " (score: " +:+ format_4f (score source) +:+ ")")
                      sources
                 ++ [""]
             end)%list.
Proof.
  unfold print_sources. destruct sources as [|s0 rest];
    [eexists; split; [reflexivity |]; by rewrite app_nil_r |].
  unfold bind, print at 1. cbv beta iota.
  rewrite (for_each_print
             (fun (i : Z) (source : SearchResult) =>
                "  [" +:+ pretty i +:+ "] " +:+ py_str (retrieval.source source)
                +:+ " (score: " +:+ format_4f (score source) +:+ ")")).
  unfold print. cbv beta iota. eexists. split; [reflexivity |].
  cbn [fs stdout groq_log]. split; [done |]. split; [done |].
  rewrite <- !app_assoc. do 2 f_equal.
  rewrite (map_enumerate
             (fun p : Z * SearchResult =>
                let '(i, source) := p in
                "  [" +:+ pretty i +:+ "] " +:+ py_str (retrieval.source source)
                +:+ " (score: " +:+ format_4f (score source) +:+ ")")).
  f_equal. apply imap_ext. intros i x _. cbv beta iota. do 3 f_equal. lia.
Qed.

#[local] Arguments answer : simpl never.
#[local] Arguments print_sources : simpl never.

(** However [answer] ends, it keeps the filesystem and adds at most
    one request to the generation log. *)
Lemma answer_outcome (self : RAGChatbot) (query : string) (return_sources : bool) (w : World) :
  exists (outcome : result Response) (w' : World),
    answer self query return_sources w = (outcome, w')
    /\ fs w' = fs w
    /\ (length (groq_log w') <= length (groq_log w) + 1)%nat.
Proof.
  destruct (search (retriever self) query (Some (top_k self)))
    as [[|r0 rest] | e] eqn:Hres.
  - eexists _, _. split; [by apply answer_without_results |]. simpl. split; [done | lia].
  - destruct (answer_with_results self query return_sources w (r0 :: rest) Hres)
      as (w' & Hrun & Hfs & Hlog & _); [done |].
    eexists _, w'. split; [exact Hrun |]. split; [exact Hfs |].
    rewrite Hlog, length_app. simpl. lia.
  - eexists _, _. split; [by apply answer_retrieval_raises |]. simpl. split; [done | lia].
Qed.

(** X21. A line that reads [quit], [exit] or [q] once stripped and
    lower-cased ends the loop: after the prompt only [Goodbye!] is
    printed, nothing is retrieved or generated, and the rest of the
    input is not read. *)
Theorem chat_quits_on_command
    (self : RAGChatbot) (text : string) (rest : list stdin_event) (w : World) :
  str_lower (str_strip text) ∈ ["quit"; "exit"; "q"] ->
  chat_from self (Line text :: rest) w
  = (Ok Exited, mkWorld (fs w) (stdout w ++ ["You: "; "Goodbye!"])%list (groq_log w)).
Proof.
  intros Hcommand. simpl.
  unfold bind, chat_body, try_except, bind, input, print, ret. simpl.
  rewrite bool_decide_eq_true_2 by done. simpl.
  by rewrite <- app_assoc.
Qed.

(** X22. A line that is blank once stripped is skipped: only the prompt is
    written and the loop goes on with the next input. *)
Theorem chat_skips_blank_line
    (self : RAGChatbot) (text : string) (rest : list stdin_event) (w : World) :
  str_strip text = "" ->
  str_lower "" ∉ ["quit"; "exit"; "q"] ->
  chat_from self (Line text :: rest) w
  = chat_from self rest (mkWorld (fs w) (stdout w ++ ["You: "])%list (groq_log w)).
Proof.
  intros Hblank Hlower. simpl.
  unfold bind at 1. unfold chat_body, try_except, bind, input, print, ret. simpl.
  rewrite Hblank. by rewrite bool_decide_eq_false_2 by done.
Qed.

(** X23. The end of standard input does not end the loop: each attempt to
    read writes the prompt and an error line, and the loop asks
    again. However often the end of input is met, the loop is still
    running, with nothing retrieved or generated. *)
Theorem chat_keeps_running_at_end_of_input (self : RAGChatbot) (n : nat) (w : World) :
  chat_from self (replicate n EndOfFile) w
  = (Ok AwaitingInput,
     mkWorld (fs w)
       (stdout w
        ++ concat (replicate n ["You: "; nl +:+ "✗ Error: " +:+ "EOF when reading a line" +:+ nl]))%list
       (groq_log w)).
Proof.
  revert w. induction n as [|n IH]; intros w; simpl.
  - rewrite app_nil_r. by destruct w.
  - unfold bind at 1. unfold chat_body, try_except, bind, input, raise, print, ret. simpl.
    rewrite IH. simpl. by rewrite <- !app_assoc.
Qed.

(** X24. A question is answered on the console: after the prompt and the
    output of [answer], the loop prints the answer between blank
    lines, then, if there are sources, a header with their number, one
    line per source numbered from 1 with its source and its score to
    four decimals, and an empty line; then it reads on. *)
Theorem chat_prints_answer_and_sources
    (self : RAGChatbot) (text : string) (rest : list stdin_event) (w w' : World)
    (r : Response) :
  str_lower (str_strip text) ∉ ["quit"; "exit"; "q"] ->
  str_strip text <> "" ->
  answer self (str_strip text) true
    (mkWorld (fs w) (stdout w ++ ["You: "])%list (groq_log w)) = (Ok r, w') ->
  chat_from self (Line text :: rest) w
  = chat_from self rest
      (mkWorld (fs w')
         (stdout w'
          ++ [nl +:+ "Assistant: " +:+ resp_answer r +:+ nl]
          ++ match resp_sources r with
             | [] => []
             | _ :: _ =>
                 ["📚 Sources (" +:+ pretty (len (resp_sources r)) +:+ " documents):"]
                 ++ imap (fun i source =>
                            "  [" +:+ pretty (Z.of_nat i + 1) +:+ "] "
                            +:+ py_str (retrieval.source source)
                            +:+ " (score: " +:+ format_4f (score source) +:+ ")")
                      (resp_sources r)
                 ++ [""]
             end)%list
         (groq_log w')).
Proof.
  intros Hcommand Hquestion Hanswer. simpl.
  unfold bind at 1. unfold chat_body, try_except, bind, input, ret, print. simpl.
  rewrite bool_decide_eq_false_2 by done.
  apply String.eqb_neq in Hquestion. rewrite Hquestion.
  rewrite Hanswer. simpl.
  match goal with
  | |- context [print_sources ?l ?w1] =>
      destruct (print_sources_outcome l w1) as (w2 & Hprint & Hfs & Hlog & Hout)
  end.
  rewrite Hprint. cbn [fs stdout groq_log] in Hfs, Hlog, Hout.
  f_equal. destruct w2 as [fs2 out2 log2]. cbn [fs stdout groq_log] in *.
  subst. by rewrite <- !app_assoc.
Qed.

(** X25. The loop itself never raises, never changes the filesystem, and
    sends at most one generation request per input event. *)
Theorem chat_never_raises (self : RAGChatbot) (events : list stdin_event) (w : World) :
  exists (status : loop_status) (w' : World),
    chat_from self events w = (Ok status, w')
    /\ fs w' = fs w
    /\ (length (groq_log w') <= length (groq_log w) + length events)%nat.
Proof.
  revert w. induction events as [|event rest IH]; intros w.
  - eexists _, _. split; [reflexivity |]. simpl. split; [done | lia].
  - assert (Hstep : exists (control : loop_control) (w1 : World),
               chat_iteration self event w = (Ok control, w1)
               /\ fs w1 = fs w
               /\ (length (groq_log w1) <= length (groq_log w) + 1)%nat).
    { destruct event as [text | |]; simpl.
      - unfold chat_body, try_except, bind, input, ret, print. simpl.
        destruct (bool_decide _).
        { eexists _, _. split; [reflexivity |]. simpl. split; [done | lia]. }
        destruct (String.eqb _ _).
        { eexists _, _. split; [reflexivity |]. simpl. split; [done | lia]. }
        match goal with
        | |- context [answer self ?q true ?w0] =>
            destruct (answer_outcome self q true w0)
              as ([r | e] & w1 & Hanswer & Hfs1 & Hlog1)
        end;
          rewrite Hanswer; simpl.
        2: { eexists _, _. split; [reflexivity |].
             cbn [fs stdout groq_log] in *. split; [congruence | exact Hlog1]. }
        match goal with
        | |- context [print_sources ?l ?w2] =>
            destruct (print_sources_outcome l w2) as (w3 & Hprint & Hfs3 & Hlog3 & _)
        end.
        rewrite Hprint. eexists _, _. split; [reflexivity |].
        cbn [fs stdout groq_log] in *. split; [congruence |]. rewrite Hlog3. exact Hlog1.
      - unfold chat_body, try_except, bind, input, raise, print, ret. simpl.
        eexists _, _. split; [reflexivity |]. simpl. split; [done | lia].
      - unfold bind, print, ret. simpl.
        eexists _, _. split; [reflexivity |]. simpl. split; [done | lia]. }
    destruct Hstep as (control & w1 & Hstep & Hfs1 & Hlog1).
    simpl. unfold bind at 1. rewrite Hstep.
    destruct control.
    + eexists _, _. split; [reflexivity |]. split; [exact Hfs1 |]. simpl. lia.
    + destruct (IH w1) as (status & w' & Hrest & Hfs' & Hlog').
      eexists _, _. split; [exact Hrest |]. split; [congruence |]. simpl. lia.
Qed.
End ChatProperties.


(** ** The further statements on concrete inputs *)

Section IngestRunsOnDisk.
Import vectorstores ingest.
#[local] Existing Instance Demo.runtime.
#[local] Existing Instance Demo.engine.

Lemma ingest_missing_data_directory_demo :
  fs DemoApi.library_world !! data_dir (DemoApi.ingestor_of "nowhere") = None
  /\ exists w' : World,
      ingest (DemoApi.ingestor_of "nowhere") DemoApi.library_world
      = (Raise (FileNotFoundError ("Data directory not found: " +:+ "nowhere")), w')
      /\ fs w' = fs DemoApi.library_world.
Proof.
  assert (Hmissing :
      fs DemoApi.library_world !! data_dir (DemoApi.ingestor_of "nowhere") = None)
    by reflexivity.
  split; [exact Hmissing |].
  destruct (ingest_missing_data_directory (DemoApi.ingestor_of "nowhere")
              DemoApi.library_world Hmissing) as (w' & Hrun & Hfs & _).
  exists w'. by split.
Defined.

Lemma ingest_loader_failure_is_fatal_demo :
  exists w' : World,
    ingest (DemoApi.ingestor_of "broken") DemoApi.library_world
    = (Raise (mkException "PdfReadError" "EOF marker not found"), w')
    /\ fs w' = fs DemoApi.library_world.
Proof.
  destruct (ingest_loader_failure_is_fatal (DemoApi.ingestor_of "broken")
              DemoApi.library_world DemoApi.broken_dir
              (mkException "PdfReadError" "EOF marker not found") eq_refl eq_refl)
    as (w' & Hrun & Hfs & _).
  exists w'. by split.
Defined.

(** The store goes to [out/store] on a disk without [out]: the parent
    is created empty, the data directory stays as it was, and no other
    path appears. *)
Lemma ingest_writes_index_and_sidecar_demo :
  exists (w' : World) (stored : Dir),
    ingest DemoApi.nested_ingestor DemoApi.library_world = (Ok tt, w')
    /\ fs w' !! "out/store" = Some stored
    /\ faiss_index stored = Some Demo.two_chunks
    /\ fs w' !! "out" = Some empty_dir
    /\ fs w' !! "papers" = Some DemoApi.papers_dir
    /\ fs w' !! "vectorstore" = None.
Proof.
  assert (Hsome : [Demo.paper_page; Demo.loose_page] <> []) by discriminate.
  assert (Hbuild :
      build_index (embeddings DemoApi.nested_ingestor)
        (split_documents (text_splitter DemoApi.nested_ingestor)
           [Demo.paper_page; Demo.loose_page])
      = Ok Demo.two_chunks) by reflexivity.
  assert (Hparents : path_parents "out/store" = ["out"]) by reflexivity.
  destruct (ingest_writes_index_and_sidecar DemoApi.nested_ingestor
              DemoApi.library_world DemoApi.papers_dir
              [Demo.paper_page; Demo.loose_page] Demo.two_chunks
              eq_refl eq_refl Hsome Hbuild)
    as (w' & stored & Hrun & Hstored & Hindex & _ & Hothers).
  exists w', stored. split; [exact Hrun |]. split; [exact Hstored |].
  split; [exact Hindex |].
  rewrite (Hothers "out"), (Hothers "papers"), (Hothers "vectorstore") by discriminate.
  cbn [vectorstore_dir DemoApi.nested_ingestor]. rewrite Hparents.
  split; [| split].
  - assert (Hnew : fs DemoApi.library_world !! "out" = None) by reflexivity.
    rewrite Hnew. rewrite bool_decide_eq_true_2; [done |].
    apply elem_of_cons. by left.
  - reflexivity.
  - assert (Hnew : fs DemoApi.library_world !! "vectorstore" = None) by reflexivity.
    rewrite Hnew. rewrite bool_decide_eq_false_2; [done |].
    intros Hin. apply elem_of_cons in Hin as [Hin | Hin]; [discriminate Hin |].
    by apply elem_of_nil in Hin.
Defined.

Lemma ingested_store_loads_demo :
  exists (w1 : World) (r : retrieval.Retriever) (w2 : World),
    ingest (DemoApi.ingestor_of "papers") DemoApi.library_world = (Ok tt, w1)
    /\ retrieval.__init__ "vectorstore" default_embedding_model 4 w1 = (Ok r, w2)
    /\ retrieval.get_stats r !! "total_chunks" = Some (PyInt 2)
    /\ retrieval.get_stats r !! "chunk_size" = Some (PyInt 1000).
Proof.
  assert (Hsome : [Demo.paper_page; Demo.loose_page] <> []) by discriminate.
  assert (Hbuild :
      build_index (embeddings (DemoApi.ingestor_of "papers"))
        (split_documents (text_splitter (DemoApi.ingestor_of "papers"))
           [Demo.paper_page; Demo.loose_page])
      = Ok Demo.two_chunks) by reflexivity.
  destruct (ingested_store_loads (DemoApi.ingestor_of "papers")
              DemoApi.library_world DemoApi.papers_dir
              [Demo.paper_page; Demo.loose_page] Demo.two_chunks
              default_embedding_model 4
              eq_refl eq_refl Hsome Hbuild)
    as (w1 & r & w2 & Hrun & Hload & _ & Htotal & Hsize & _).
  exists w1, r, w2. split; [exact Hrun |]. split; [exact Hload |].
  split; [exact Htotal | exact Hsize].
Defined.
End IngestRunsOnDisk.

Section IngestRunsOffline.
Import vectorstores ingest.
#[local] Existing Instance Demo.runtime.
#[local] Existing Instance DemoOffline.engine.

Lemma ingest_index_failure_writes_nothing_demo :
  exists w' : World,
    ingest DemoOffline.ingestor DemoOffline.world
    = (Raise (mkException "OSError" "embedding model not found"), w')
    /\ fs w' = fs DemoOffline.world
    /\ fs w' !! "vectorstore" = None.
Proof.
  assert (Hsome : [Demo.paper_page] <> []) by discriminate.
  destruct (ingest_index_failure_writes_nothing DemoOffline.ingestor DemoOffline.world
              DemoOffline.papers_dir [Demo.paper_page]
              (mkException "OSError" "embedding model not found")
              eq_refl eq_refl Hsome eq_refl)
    as (w' & Hrun & Hfs & _).
  exists w'. split; [exact Hrun |]. split; [exact Hfs |].
  rewrite Hfs. reflexivity.
Defined.
End IngestRunsOffline.

Section ChatbotRunsOnDisk.
Import vectorstores retrieval chatbot_groq api_query chat_loop.
#[local] Existing Instance Demo.runtime.
#[local] Existing Instance Demo.engine.
#[local] Existing Instance DemoApi.handler_runtime.
#[local] Existing Instance DemoApi.chat_runtime.

Lemma answer_returns_stripped_first_choice_demo :
  exists (r : Response) (w' : World),
    answer (groq := Demo.groq_up) (Demo.chatbot_on [Demo.paper_page; Demo.loose_page])
      "what is attention?" true Demo.world = (Ok r, w')
    /\ resp_answer r = "Attention relates every token to every other.".
Proof.
  assert (Hsome : [format_result Demo.paper_page 8%nat;
                   format_result Demo.loose_page 42%nat] <> []) by discriminate.
  destruct (answer_returns_stripped_first_choice (groq := Demo.groq_up)
              (Demo.chatbot_on [Demo.paper_page; Demo.loose_page])
              "what is attention?" true Demo.world _
              "  Attention relates every token to every other. " []
              two_pages_retrieved Hsome eq_refl)
    as (r & w' & Hrun & Htext & _).
  exists r, w'. split; [exact Hrun |]. rewrite Htext. reflexivity.
Defined.

Lemma answer_survives_malformed_completion_demo :
  exists (r : Response) (w' : World) (detail : string),
    answer (groq := DemoApi.groq_empty) (Demo.chatbot_on [Demo.paper_page; Demo.loose_page])
      "what is attention?" false Demo.world = (Ok r, w')
    /\ resp_answer r = "Error generating answer: " +:+ detail
    /\ resp_sources r = [].
Proof.
  assert (Hsome : [format_result Demo.paper_page 8%nat;
                   format_result Demo.loose_page 42%nat] <> []) by discriminate.
  destruct (answer_survives_malformed_completion (groq := DemoApi.groq_empty)
              (Demo.chatbot_on [Demo.paper_page; Demo.loose_page])
              "what is attention?" false Demo.world _ (mkChatCompletion [])
              two_pages_retrieved Hsome eq_refl (or_introl eq_refl))
    as (r & w' & detail & Hrun & Htext & _ & Hsources & _).
  exists r, w', detail. by repeat split.
Defined.

Lemma chatbot_requires_store_directory_demo :
  exists w' : World,
    fst (chatbot_groq.__init__ "nowhere" (Some "gsk_demo") "llama-3.2-3b-preview" 4 1000
           Demo.world)
    = Raise (FileNotFoundError
               ("Vector store not found at " +:+ "nowhere" +:+ ". Please run ingest.py first."))
    /\ fs w' = fs Demo.world.
Proof.
  assert (Hkey : "gsk_demo" <> "") by discriminate.
  destruct (chatbot_requires_store_directory "nowhere" "gsk_demo" "llama-3.2-3b-preview"
              4 (1000%Z : @float Demo.runtime) Demo.world Hkey eq_refl)
    as (w' & Hrun & Hfs & _).
  exists w'. rewrite Hrun. by split.
Defined.

Lemma chatbot_ready_on_persisted_store_demo :
  exists (bot : RAGChatbot) (w' : World),
    chatbot_groq.__init__ "bare_store" (Some "gsk_demo") "llama-3.2-3b-preview" 4 1000
      Demo.world = (Ok bot, w')
    /\ index (vectorstore (retriever bot)) = Demo.two_chunks
    /\ groq_log w' = groq_log Demo.world.
Proof.
  assert (Hkey : "gsk_demo" <> "") by discriminate.
  destruct (chatbot_ready_on_persisted_store "bare_store" "gsk_demo" "llama-3.2-3b-preview"
              4 (1000%Z : @float Demo.runtime) Demo.world Demo.bare_dir Demo.two_chunks
              Hkey eq_refl eq_refl)
    as (bot & w' & Hrun & _ & _ & Hindex & _ & Hlog & _).
  exists bot, w'. by repeat split.
Defined.

Lemma rag_core_resolves_api_key_demo :
  rag_core.__init__ DemoApi.environ "bare_store" None "llama-3.2-3b-preview" 4 1000 Demo.world
  = chatbot_groq.__init__ "bare_store" (Some "gsk_demo") "llama-3.2-3b-preview" 4 1000
      Demo.world.
Proof.
  assert (Hkey : "gsk_demo" <> "") by discriminate.
  apply (rag_core_resolves_api_key DemoApi.environ "bare_store" None "gsk_demo"
           "llama-3.2-3b-preview" 4 (1000%Z : @float Demo.runtime) Demo.world Hkey).
  right. split; [by left | reflexivity].
Defined.
End ChatbotRunsOnDisk.

Section HandlerRunsOnDisk.
Import vectorstores retrieval chatbot_groq api_query chat_loop.
#[local] Existing Instance Demo.runtime.
#[local] Existing Instance Demo.engine.
#[local] Existing Instance DemoApi.handler_runtime.
#[local] Existing Instance DemoApi.chat_runtime.

Lemma handler_settles_other_methods_demo :
  handler (groq := Demo.groq_up) None (mkHttpRequest "GET" "") Demo.world
  = (Ok (mkHttpResponse 405 cors_headers (json_dumps_error "Method Not Allowed")),
     Demo.world).
Proof.
  assert (Hmethod : method (mkHttpRequest "GET" "") <> "POST") by discriminate.
  rewrite (handler_settles_other_methods (groq := Demo.groq_up) None
             (mkHttpRequest "GET" "") Demo.world Hmethod).
  reflexivity.
Defined.

Lemma handler_rejects_bad_body_demo :
  exists detail : string,
    handler (groq := Demo.groq_up) (Some (Demo.chatbot_on [Demo.paper_page]))
      (mkHttpRequest "POST" "") Demo.world
    = (Ok (mkHttpResponse 400 cors_headers
             (json_dumps_error ("Invalid request body: " +:+ detail))), Demo.world).
Proof.
  apply (handler_rejects_bad_body (groq := Demo.groq_up)
           (Some (Demo.chatbot_on [Demo.paper_page])) (mkHttpRequest "POST" "") Demo.world).
  - reflexivity.
  - intros d Hparsed. discriminate Hparsed.
Defined.

Lemma handler_without_chatbot_demo :
  exists w' : World,
    handler (groq := Demo.groq_up) None (DemoApi.ask "what is attention?") Demo.world
    = (Ok (mkHttpResponse 500 cors_headers
             (json_dumps_error
                ("Internal Server Error: " +:+ "RAG Chatbot not initialized."))), w')
    /\ groq_log w' = groq_log Demo.world.
Proof.
  assert (Hbody : json_loads (body (DemoApi.ask "what is attention?"))
                  = Ok (JDict [("question", JStr "what is attention?")])) by reflexivity.
  destruct (handler_without_chatbot (groq := Demo.groq_up)
              (DemoApi.ask "what is attention?") Demo.world
              [("question", JStr "what is attention?")] eq_refl Hbody eq_refl)
    as (w' & Hrun & _ & Hlog).
  exists w'. by split.
Defined.

Lemma handler_answers_question_demo :
  exists (payload : string) (w' : World),
    handler (groq := Demo.groq_up) (Some (Demo.chatbot_on []))
      (DemoApi.ask "what is attention?") Demo.world
    = (Ok (mkHttpResponse 200 cors_headers payload), w').
Proof.
  assert (Hquestion : "what is attention?" <> "") by discriminate.
  eexists _, _.
  eapply (handler_answers_question (groq := Demo.groq_up) (Demo.chatbot_on [])
            (DemoApi.ask "what is attention?") Demo.world _
            [("question", JStr "what is attention?")] "what is attention?").
  - reflexivity.
  - reflexivity.
  - reflexivity.
  - exact Hquestion.
  - apply (answer_without_results (groq := Demo.groq_up)). reflexivity.
  - reflexivity.
Defined.

Lemma handler_answers_200_on_generation_failure_demo :
  exists (payload : string) (w' : World),
    handler (groq := Demo.groq_down)
      (Some (Demo.chatbot_on [Demo.paper_page; Demo.loose_page]))
      (DemoApi.ask "what is attention?") Demo.world
    = (Ok (mkHttpResponse 200 cors_headers payload), w')
    /\ last (stdout w') = Some ("✗ Generation error: " +:+ "Connection error.").
Proof.
  assert (Hquestion : "what is attention?" <> "") by discriminate.
  assert (Hsome : [format_result Demo.paper_page 8%nat;
                   format_result Demo.loose_page 42%nat] <> []) by discriminate.
  eexists.
  eapply (handler_answers_200_on_generation_failure (groq := Demo.groq_down)
            (Demo.chatbot_on [Demo.paper_page; Demo.loose_page])
            (DemoApi.ask "what is attention?") Demo.world
            [("question", JStr "what is attention?")] "what is attention?" _ _
            (mkException "APIConnectionError" "Connection error.")).
  - reflexivity.
  - reflexivity.
  - reflexivity.
  - exact Hquestion.
  - exact two_pages_retrieved.
  - exact Hsome.
  - reflexivity.
  - reflexivity.
Defined.


Lemma init_rag_bot_ready_demo :
  exists (bot : RAGChatbot) (w' : World),
    init_rag_bot DemoApi.environ
      (mkWorld (<["vectorstore" := Demo.bare_dir]> ∅) [] [])
    = (Ok (Some bot), w')
    /\ top_k bot = 4
    /\ index (vectorstore (retriever bot)) = Demo.two_chunks.
Proof.
  assert (Hkey : "gsk_demo" <> "") by discriminate.
  assert (Henv : DemoApi.environ !! "GROQ_API_KEY" = Some "gsk_demo")
    by apply lookup_insert_eq.
  assert (Hdir : fs (mkWorld (<["vectorstore" := Demo.bare_dir]> ∅) [] []) !! "vectorstore"
                 = Some Demo.bare_dir) by apply lookup_insert_eq.
  destruct (init_rag_bot_ready DemoApi.environ
              (mkWorld (<["vectorstore" := Demo.bare_dir]> ∅) [] [])
              "gsk_demo" Demo.bare_dir Demo.two_chunks Henv Hkey Hdir eq_refl)
    as (bot & w' & Hrun & _ & Htop & _ & Hindex & _).
  exists bot, w'. by repeat split.
Defined.

Lemma chat_quits_on_command_demo :
  chat_from (groq := Demo.groq_up) (Demo.chatbot_on [Demo.paper_page])
    [Line "  QUIT "; Line "what is attention?"] Demo.world
  = (Ok Exited,
     mkWorld (fs Demo.world) (stdout Demo.world ++ ["You: "; "Goodbye!"])%list
       (groq_log Demo.world)).
Proof.
  apply (chat_quits_on_command (groq := Demo.groq_up)).
  assert (Hcommand : str_lower (str_strip "  QUIT ") = "quit") by reflexivity.
  rewrite Hcommand. set_solver.
Defined.

Lemma chat_skips_blank_line_demo :
  chat_from (groq := Demo.groq_up) (Demo.chatbot_on [Demo.paper_page])
    [Line "   "; Line "q"] Demo.world
  = chat_from (groq := Demo.groq_up) (Demo.chatbot_on [Demo.paper_page])
      [Line "q"]
      (mkWorld (fs Demo.world) (stdout Demo.world ++ ["You: "])%list (groq_log Demo.world)).
Proof.
  apply (chat_skips_blank_line (groq := Demo.groq_up)).
  - reflexivity.
  - assert (Hlower : str_lower "" = "") by reflexivity.
    rewrite Hlower. intros Hin.
    repeat (apply elem_of_cons in Hin as [Hin | Hin]; [discriminate Hin |]).
    by apply elem_of_nil in Hin.
Defined.

(** One question to the two-page chatbot: the console ends with the
    answer and a line per retrieved chunk, the page without source
    shown as [Unknown]. *)
Lemma chat_prints_answer_and_sources_demo :
  exists w' : World,
    chat_from (groq := Demo.groq_up) (Demo.chatbot_on [Demo.paper_page; Demo.loose_page])
      [Line " what is attention? "] Demo.world = (Ok AwaitingInput, w')
    /\ stdout w'
       = ["You: ";
          nl +:+ "Processing query: what is attention?";
          "Retrieving relevant documents...";
          "Generating answer with llama-3.2-3b-preview...";
          nl +:+ "Assistant: Attention relates every token to every other." +:+ nl;
          "📚 Sources (2 documents):";
          "  [1] data/attention.pdf (score: 8.0000)";
          "  [2] Unknown (score: 42.0000)";
          ""].
Proof.
  assert (Hquery : str_strip " what is attention? " = "what is attention?") by reflexivity.
  assert (Hcommand : str_lower (str_strip " what is attention? ") ∉ ["quit"; "exit"; "q"]).
  { intros Hin.
    repeat (apply elem_of_cons in Hin as [Hin | Hin]; [discriminate Hin |]).
    by apply elem_of_nil in Hin. }
  assert (Hquestion : str_strip " what is attention? " <> "") by discriminate.
  assert (Hsome : [format_result Demo.paper_page 8%nat;
                   format_result Demo.loose_page 42%nat] <> []) by discriminate.
  eexists. split.
  - erewrite (chat_prints_answer_and_sources (groq := Demo.groq_up)
                (Demo.chatbot_on [Demo.paper_page; Demo.loose_page])
                " what is attention? " [] Demo.world _ _ Hcommand Hquestion).
    + reflexivity.
    + rewrite Hquery.
      apply (answer_with_first_choice (groq := Demo.groq_up)
               (Demo.chatbot_on [Demo.paper_page; Demo.loose_page])
               "what is attention?" true _ _
               "  Attention relates every token to every other. " []
               two_pages_retrieved Hsome eq_refl).
  - reflexivity.
Defined.
End HandlerRunsOnDisk.
